(** * azure-storage-python: response deserialization and file request headers

    A shallow embedding of
      - azure/storage/_deserialization.py
      - azure/storage/file/_deserialization.py
      - azure/storage/file/_serialization.py
    Python values that may be [None] are [option]s, raised exceptions are the
    [Raise] case of [result], dictionaries are [gmap]s, and the XML element
    tree of [xml.etree] is an inductive tree of tagged nodes. *)

From Stdlib Require Import ZArith String Ascii List.
From stdpp Require Import base option list strings gmap.

Local Open Scope string_scope.
Local Open Scope list_scope.
Local Open Scope Z_scope.

(** ** Python exceptions and fallible computations *)

Inductive exn : Set :=
| AttributeError   (* attribute access on None / missing attribute *)
| TypeError        (* int(None), parse(None), iteration over None *)
| ValueError       (* int / date parser rejected the text *)
| ParseError.      (* ETree.fromstring rejected the document *)

Inductive result (A : Type) : Type :=
| Ok (a : A)
| Raise (e : exn).
Arguments Ok {A} a.
Arguments Raise {A} e.

#[global] Instance result_ret : MRet result := @Ok.
#[global] Instance result_bind : MBind result := fun A B f m =>
  match m with
  | Ok a => f a
  | Raise e => Raise e
  end.
#[global] Instance result_fmap : FMap result := fun A B f m =>
  match m with
  | Ok a => Ok (f a)
  | Raise e => Raise e
  end.

Definition raises {A} (m : result A) : Prop := exists e, m = Raise e.

(** A [for] loop that threads a state and stops at the first exception. *)
Fixpoint for_each {S X : Type} (body : S -> X -> result S) (xs : list X) (s : S)
  : result S :=
  match xs with
  | [] => Ok s
  | x :: xs' => s' ← body s x; for_each body xs' s'
  end.

(** ** Python string operations used by the parsers *)

Definition startswith (s p : string) : bool := String.prefix p s.

(** [s.split(sep)] for a one-character separator: never the empty list. *)
Fixpoint split (sep : ascii) (s : string) : list string :=
  match s with
  | EmptyString => [""]
  | String c s' =>
      if Ascii.eqb c sep then "" :: split sep s'
      else match split sep s' with
           | [] => [String c ""]
           | w :: ws => String c w :: ws
           end
  end.

Definition lower_ascii (c : ascii) : ascii :=
  let n := nat_of_ascii c in
  if ((65 <=? n) && (n <=? 90))%nat then ascii_of_nat (n + 32) else c.

Fixpoint lower (s : string) : string :=
  match s with
  | EmptyString => EmptyString
  | String c s' => String (lower_ascii c) (lower s')
  end.

(** [x or None] on a string-or-None value. *)
Definition or_None (x : option string) : option string :=
  match x with
  | Some "" => None
  | other => other
  end.

(** ** xml.etree element trees *)

Module ETree.

#[warnings="-register-all"]
Inductive Element : Type :=
| Elem (tag : string) (text : option string) (children : list Element).

Definition tag (e : Element) : string := let 'Elem t _ _ := e in t.
Definition text (e : Element) : option string := let 'Elem _ x _ := e in x.
Definition children (e : Element) : list Element := let 'Elem _ _ c := e in c.

Definition has_tag (t : string) (e : Element) : bool := String.eqb (tag e) t.

(** [e.find(t)]: the first direct child tagged [t], or None. *)
Definition find (e : Element) (t : string) : option Element :=
  List.find (has_tag t) (children e).

(** [e.findall(t)]: the direct children tagged [t], in document order. *)
Definition findall (e : Element) (t : string) : list Element :=
  List.filter (has_tag t) (children e).

(** [e.findtext(t)]: None when no child is tagged [t]; the text of the
    first such child otherwise, an element without text giving [""]. *)
Definition findtext (e : Element) (t : string) : option string :=
  match find e t with
  | None => None
  | Some c => Some (default "" (text c))
  end.

End ETree.
Import ETree.

(** Attribute access [x.text] / method call [x.find(t)] on a value that may
    be None: None has no attributes. *)
Definition deref {A} (x : option A) : result A :=
  match x with
  | Some a => Ok a
  | None => Raise AttributeError
  end.

(** ** Model classes

    The model classes of azure/storage/models.py and
    azure/storage/file/models.py and the HTTP response and request classes
    are not among the source files; they follow section 3 and section 6 of
    the specification.  Every field a constructor leaves unconfigured is
    None, every sequence starts empty. *)

(** A [datetime.datetime] value as returned by [dateutil.parser.parse]. *)
Record datetime : Set := mk_datetime {
  dt_year : Z; dt_month : Z; dt_day : Z;
  dt_hour : Z; dt_minute : Z; dt_second : Z
}.

Definition header : Type := string * option string.

(** Modelled from the spec: the transport response, [.headers] a sequence of
    name/value pairs and [.body] a byte buffer or absent. *)
Record HTTPResponse : Type := mk_response {
  headers : option (list header);
  body : option string
}.

(** Values the header extractor stores on a properties object. *)
Inductive pyval : Type :=
| PyNone
| PyStr (s : string)
| PyInt (z : Z)
| PyDate (d : datetime).

(** Modelled from the spec: a properties record of models.py, seen through
    getattr and setattr: its scalar attributes and its pre-allocated nested
    sub-records (content_settings, lease, copy), each by name. *)
Record Properties : Type := mk_properties {
  attrs : gmap string pyval;
  subrecords : gmap string (gmap string pyval)
}.

(** Modelled from the spec: AccessPolicy of models.py, three optional fields. *)
Record AccessPolicy : Type := mk_access_policy {
  ap_permission : option string;
  ap_expiry : option datetime;
  ap_start : option datetime
}.
Definition AccessPolicy_new : AccessPolicy := mk_access_policy None None None.

(** Modelled from the spec: RetentionPolicy of models.py. *)
Record RetentionPolicy : Type := mk_retention_policy {
  rp_enabled : option bool;
  rp_days : option Z
}.
Definition RetentionPolicy_new : RetentionPolicy := mk_retention_policy None None.

(** Modelled from the spec: Logging of models.py, its retention policy
    allocated by the constructor. *)
Record Logging : Type := mk_logging {
  log_version : option string;
  log_delete : option bool;
  log_read : option bool;
  log_write : option bool;
  log_retention_policy : RetentionPolicy
}.
Definition Logging_new : Logging :=
  mk_logging None None None None RetentionPolicy_new.

(** Modelled from the spec: Metrics of models.py, its retention policy
    allocated by the constructor. *)
Record Metrics : Type := mk_metrics {
  met_version : option string;
  met_enabled : option bool;
  met_include_apis : option bool;
  met_retention_policy : RetentionPolicy
}.
Definition Metrics_new : Metrics := mk_metrics None None None RetentionPolicy_new.

(** Modelled from the spec: CorsRule of models.py; the exposed and allowed
    headers are optional sequences. *)
Record CorsRule : Type := mk_cors_rule {
  cors_allowed_origins : list string;
  cors_allowed_methods : list string;
  cors_max_age_in_seconds : Z;
  cors_exposed_headers : option (list string);
  cors_allowed_headers : option (list string)
}.
(** [CorsRule(allowed_origins, allowed_methods, max_age_in_seconds)] *)
Definition CorsRule_new (origins methods : list string) (age : Z) : CorsRule :=
  mk_cors_rule origins methods age None None.

(** Modelled from the spec: ServiceProperties of models.py, every part optional. *)
Record ServiceProperties : Type := mk_service_properties {
  sp_logging : option Logging;
  sp_hour_metrics : option Metrics;
  sp_minute_metrics : option Metrics;
  sp_cors : option (list CorsRule);
  sp_target_version : option string
}.
Definition ServiceProperties_new : ServiceProperties :=
  mk_service_properties None None None None None.

(** Modelled from the spec: ShareProperties of file/models.py. *)
Record ShareProperties : Type := mk_share_properties {
  share_last_modified : option datetime;
  share_etag : option string;
  share_quota : option Z
}.

(** Modelled from the spec: Share of file/models.py, its properties allocated
    by the constructor. *)
Record Share : Type := mk_share {
  share_name : option string;
  share_properties : ShareProperties;
  share_metadata : option (gmap string (option string))
}.
Definition Share_new : Share :=
  mk_share None (mk_share_properties None None None) None.

(** Modelled from the spec: FileProperties of file/models.py, as far as the
    listing parser writes it. *)
Record FileProperties : Type := mk_file_properties {
  content_length : option Z
}.

(** Modelled from the spec: File of file/models.py, its properties allocated
    by the constructor. *)
Record File : Type := mk_file {
  file_name : option string;
  file_properties : FileProperties
}.
Definition File_new : File := mk_file None (mk_file_properties None).

(** Modelled from the spec: Directory of file/models.py. *)
Record Directory : Type := mk_directory {
  directory_name : option string
}.
Definition Directory_new : Directory := mk_directory None.

(** Modelled from the spec: FileAndDirectoryResults of file/models.py. *)
Record FileAndDirectoryResults : Type := mk_entries {
  files : list File;
  directories : list Directory;
  entries_next_marker : option string
}.

(** Modelled from the spec: [_list] of models.py, a list that also carries
    the continuation marker. *)
Record _list (A : Type) : Type := mk_list {
  items : list A;
  next_marker : option string
}.
Arguments mk_list {A} items next_marker.
Arguments items {A} _.
Arguments next_marker {A} _.

(** Modelled from the spec: Range of file/models.py. *)
Record Range : Type := mk_range {
  range_start : Z;
  range_end : Z
}.

(** Modelled from the spec: ShareStats of file/models.py. *)
Record ShareStats : Type := mk_share_stats {
  share_usage : Z
}.

(** Modelled from the spec: the outgoing request, its header collection and
    the fields this layer never reads. *)
Record HTTPRequest : Type := mk_request {
  req_method : string;
  req_host : string;
  req_path : string;
  req_headers : list (string * string);
  req_body : string
}.

(** What a listing parser hands back: the response it was given, untouched,
    or the collection it parsed. *)
Inductive listing (C : Type) : Type :=
| Passthrough (response : option HTTPResponse)
| Parsed (c : C).
Arguments Passthrough {C} response.
Arguments Parsed {C} c.

(** ** Samples used by the examples below *)

Module Samples.

(** Decimal integer text: an optional sign and at least one digit. *)
Definition digit_value (c : ascii) : option Z :=
  let n := nat_of_ascii c in
  if ((48 <=? n) && (n <=? 57))%nat then Some (Z.of_nat (n - 48)) else None.

Fixpoint digits_value (acc : Z) (s : string) : option Z :=
  match s with
  | EmptyString => Some acc
  | String c s' =>
      match digit_value c with
      | Some d => digits_value (10 * acc + d) s'
      | None => None
      end
  end.

Definition decimal_int (s : string) : option Z :=
  match s with
  | EmptyString => None
  | String "-" (String c s') => Z.opp <$> digits_value 0 (String c s')
  | String "+" (String c s') => digits_value 0 (String c s')
  | String c s' => digits_value 0 (String c s')
  end.

(** A date parser that knows one timestamp. *)
Definition epoch_2016 : datetime := mk_datetime 2016 1 1 0 0 0.
Definition parse_known_date (s : string) : option datetime :=
  if String.eqb s "Fri, 01 Jan 2016 00:00:00 GMT" then Some epoch_2016 else None.

(** A file properties object: scalar attributes unset, the two nested
    records of a file allocated and empty. *)
Definition file_properties_object : Properties :=
  mk_properties ∅ (<["content_settings" := ∅]> (<["copy" := ∅]> ∅)).

Definition response_with_headers (hs : list header) : option HTTPResponse :=
  Some (mk_response (Some hs) None).

(** Sample documents and the trees [ETree.fromstring] builds from them. *)
Definition leaf (t s : string) : Element := Elem t (Some s) [].
Definition node (t : string) (cs : list Element) : Element := Elem t None cs.

Definition a_date : string := "Fri, 01 Jan 2016 00:00:00 GMT".

Definition files_xml : string :=
  "<EnumerationResults><Entries><File><Name>a.txt</Name><Properties><Content-Length>3</Content-Length></Properties></File><Directory><Name>sub</Name></Directory><File><Name>b.txt</Name><Properties><Content-Length>5</Content-Length></Properties></File></Entries><NextMarker /></EnumerationResults>".
Definition files_tree : Element :=
  node "EnumerationResults"
    [ node "Entries"
        [ node "File" [leaf "Name" "a.txt";
                       node "Properties" [leaf "Content-Length" "3"]];
          node "Directory" [leaf "Name" "sub"];
          node "File" [leaf "Name" "b.txt";
                       node "Properties" [leaf "Content-Length" "5"]] ];
      node "NextMarker" [] ].

Definition shares_xml : string :=
  "<EnumerationResults><Shares><Share><Name>s1</Name><Properties><Last-Modified>Fri, 01 Jan 2016 00:00:00 GMT</Last-Modified><Etag>0x1</Etag><Quota>10</Quota></Properties></Share></Shares><NextMarker>abc</NextMarker></EnumerationResults>".
Definition shares_tree : Element :=
  node "EnumerationResults"
    [ node "Shares"
        [ node "Share"
            [ leaf "Name" "s1";
              node "Properties"
                [leaf "Last-Modified" a_date; leaf "Etag" "0x1"; leaf "Quota" "10"] ] ];
      leaf "NextMarker" "abc" ].

(** A Share without Name and without Etag. *)
Definition nameless_share_xml : string :=
  "<EnumerationResults><Shares><Share><Properties><Last-Modified>Fri, 01 Jan 2016 00:00:00 GMT</Last-Modified><Quota>10</Quota></Properties></Share></Shares></EnumerationResults>".
Definition nameless_share_tree : Element :=
  node "EnumerationResults"
    [ node "Shares"
        [ node "Share"
            [ node "Properties" [leaf "Last-Modified" a_date; leaf "Quota" "10"] ] ] ].

(** A Share whose Properties block has no Quota. *)
Definition quotaless_share_xml : string :=
  "<EnumerationResults><Shares><Share><Name>s1</Name><Properties><Last-Modified>Fri, 01 Jan 2016 00:00:00 GMT</Last-Modified><Etag>0x1</Etag></Properties></Share></Shares></EnumerationResults>".
Definition quotaless_share_tree : Element :=
  node "EnumerationResults"
    [ node "Shares"
        [ node "Share"
            [ leaf "Name" "s1";
              node "Properties" [leaf "Last-Modified" a_date; leaf "Etag" "0x1"] ] ] ].

(** Service properties with one CORS rule whose ExposedHeaders is empty. *)
Definition cors_xml : string :=
  "<StorageServiceProperties><Cors><CorsRule><AllowedOrigins>a.com,b.com</AllowedOrigins><AllowedMethods>GET,PUT</AllowedMethods><MaxAgeInSeconds>500</MaxAgeInSeconds><ExposedHeaders /><AllowedHeaders>x-ms-meta-data*,x-ms-meta-target*</AllowedHeaders></CorsRule></Cors></StorageServiceProperties>".
Definition cors_rule_tree : Element :=
  node "CorsRule"
    [ leaf "AllowedOrigins" "a.com,b.com"; leaf "AllowedMethods" "GET,PUT";
      leaf "MaxAgeInSeconds" "500"; node "ExposedHeaders" [];
      leaf "AllowedHeaders" "x-ms-meta-data*,x-ms-meta-target*" ].
Definition cors_tree : Element :=
  node "StorageServiceProperties" [node "Cors" [cors_rule_tree]].

(** The same rule without the ExposedHeaders element. *)
Definition cors_no_exposed_xml : string :=
  "<StorageServiceProperties><Cors><CorsRule><AllowedOrigins>a.com,b.com</AllowedOrigins><AllowedMethods>GET,PUT</AllowedMethods><MaxAgeInSeconds>500</MaxAgeInSeconds><AllowedHeaders>x-ms-meta-data*,x-ms-meta-target*</AllowedHeaders></CorsRule></Cors></StorageServiceProperties>".
Definition cors_no_exposed_rule_tree : Element :=
  node "CorsRule"
    [ leaf "AllowedOrigins" "a.com,b.com"; leaf "AllowedMethods" "GET,PUT";
      leaf "MaxAgeInSeconds" "500";
      leaf "AllowedHeaders" "x-ms-meta-data*,x-ms-meta-target*" ].
Definition cors_no_exposed_tree : Element :=
  node "StorageServiceProperties" [node "Cors" [cors_no_exposed_rule_tree]].

(** One stored access policy with a start time and nothing else. *)
Definition policy_xml : string :=
  "<SignedIdentifiers><SignedIdentifier><Id>policy1</Id><AccessPolicy><Start>Fri, 01 Jan 2016 00:00:00 GMT</Start></AccessPolicy></SignedIdentifier></SignedIdentifiers>".
Definition policy_element : Element :=
  node "SignedIdentifier"
    [leaf "Id" "policy1"; node "AccessPolicy" [leaf "Start" a_date]].
Definition policy_tree : Element := node "SignedIdentifiers" [policy_element].

Definition documents : list (string * Element) :=
  [ (files_xml, files_tree); (shares_xml, shares_tree);
    (nameless_share_xml, nameless_share_tree);
    (quotaless_share_xml, quotaless_share_tree);
    (cors_xml, cors_tree); (cors_no_exposed_xml, cors_no_exposed_tree);
    (policy_xml, policy_tree) ].

(** [ETree.fromstring] restricted to the sample documents. *)
Definition parse_document (xml : string) : option Element :=
  snd <$> List.find (fun d => String.eqb (fst d) xml) documents.

Definition response_with_body (b : string) : option HTTPResponse :=
  Some (mk_response (Some []) (Some b)).

(** Further sample documents. *)
Definition empty_shares_xml : string :=
  "<EnumerationResults><Shares /><NextMarker /></EnumerationResults>".
Definition empty_shares_tree : Element :=
  node "EnumerationResults" [node "Shares" []; node "NextMarker" []].

Definition ranges_xml : string :=
  "<Ranges><Range><Start>0</Start><End>511</End></Range></Ranges>".
Definition ranges_tree : Element :=
  node "Ranges" [node "Range" [leaf "Start" "0"; leaf "End" "511"]].

Definition stats_xml : string :=
  "<ShareStats><ShareUsage>15</ShareUsage></ShareStats>".
Definition stats_tree : Element := node "ShareStats" [leaf "ShareUsage" "15"].

(** A File whose Properties block is empty. *)
Definition file_without_length_xml : string :=
  "<EnumerationResults><Entries><File><Name>a.txt</Name><Properties /></File></Entries></EnumerationResults>".
Definition file_without_length_tree : Element :=
  node "EnumerationResults"
    [node "Entries" [node "File" [leaf "Name" "a.txt"; node "Properties" []]]].

(** A Share with two metadata children of the same tag. *)
Definition share_with_metadata : Element :=
  node "Share"
    [ leaf "Name" "s1";
      node "Properties"
        [leaf "Last-Modified" a_date; leaf "Etag" "0x1"; leaf "Quota" "10"];
      node "Metadata" [leaf "color" "red"; leaf "size" "xl"; leaf "color" "blue"] ].

(** A stored access policy without an Id. *)
Definition policy_without_id_xml : string :=
  "<SignedIdentifiers><SignedIdentifier><AccessPolicy /></SignedIdentifier></SignedIdentifiers>".
Definition policy_without_id_tree : Element :=
  node "SignedIdentifiers" [node "SignedIdentifier" [node "AccessPolicy" []]].

(** Service properties with logging and a default version. *)
Definition logging_xml : string :=
  "<StorageServiceProperties><Logging><Version>1.0</Version><Delete>True</Delete><Read>false</Read><Write>false</Write><RetentionPolicy><Enabled>true</Enabled><Days>7</Days></RetentionPolicy></Logging><DefaultServiceVersion>2015-02-21</DefaultServiceVersion></StorageServiceProperties>".
Definition logging_tree : Element :=
  node "StorageServiceProperties"
    [ node "Logging"
        [ leaf "Version" "1.0"; leaf "Delete" "True"; leaf "Read" "false";
          leaf "Write" "false";
          node "RetentionPolicy" [leaf "Enabled" "true"; leaf "Days" "7"] ];
      leaf "DefaultServiceVersion" "2015-02-21" ].

(** Logging without its RetentionPolicy. *)
Definition logging_without_retention_xml : string :=
  "<StorageServiceProperties><Logging><Version>1.0</Version><Delete>true</Delete><Read>false</Read><Write>false</Write></Logging></StorageServiceProperties>".
Definition logging_without_retention_tree : Element :=
  node "StorageServiceProperties"
    [ node "Logging"
        [ leaf "Version" "1.0"; leaf "Delete" "true"; leaf "Read" "false";
          leaf "Write" "false" ] ].

(** A CORS rule whose AllowedOrigins element is empty. *)
Definition cors_empty_origins_xml : string :=
  "<StorageServiceProperties><Cors><CorsRule><AllowedOrigins /><AllowedMethods>GET</AllowedMethods><MaxAgeInSeconds>5</MaxAgeInSeconds><ExposedHeaders /><AllowedHeaders /></CorsRule></Cors></StorageServiceProperties>".
Definition cors_empty_origins_rule : Element :=
  node "CorsRule"
    [ node "AllowedOrigins" []; leaf "AllowedMethods" "GET";
      leaf "MaxAgeInSeconds" "5"; node "ExposedHeaders" [];
      node "AllowedHeaders" [] ].
Definition cors_empty_origins_tree : Element :=
  node "StorageServiceProperties" [node "Cors" [cors_empty_origins_rule]].

Definition further_documents : list (string * Element) :=
  [ (empty_shares_xml, empty_shares_tree); (ranges_xml, ranges_tree);
    (stats_xml, stats_tree);
    (file_without_length_xml, file_without_length_tree);
    (policy_without_id_xml, policy_without_id_tree);
    (logging_xml, logging_tree);
    (logging_without_retention_xml, logging_without_retention_tree);
    (cors_empty_origins_xml, cors_empty_origins_tree) ].

(** [ETree.fromstring] on all the sample documents; anything else is
    rejected as malformed. *)
Definition parse_any_document (xml : string) : option Element :=
  snd <$> List.find (fun d => String.eqb (fst d) xml)
                    (documents ++ further_documents).

End Samples.

(** ** The parsers

    Three library functions are parameters of the development: Python's
    [int] on text, [dateutil.parser.parse] on text, and [ETree.fromstring]
    on a response body.  Each answers None where the library raises. *)

Section Storage.

Variable int_of_text : string -> option Z.
Variable dateutil_parse : string -> option datetime.
Variable fromstring_opt : string -> option Element.

(** [int(x)]: a TypeError on None, a ValueError on text that is no integer. *)
Definition int (x : option string) : result Z :=
  match x with
  | None => Raise TypeError
  | Some s => from_option Ok (Raise ValueError) (int_of_text s)
  end.

(** [parser.parse(x)]: the parser reads its argument as text, so None
    raises; text that is no timestamp raises a ValueError. *)
Definition parser_parse (x : option string) : result datetime :=
  match x with
  | None => Raise TypeError
  | Some s => from_option Ok (Raise ValueError) (dateutil_parse s)
  end.

Definition fromstring (xml : string) : result Element :=
  from_option Ok (Raise ParseError) (fromstring_opt xml).

(** *** azure/storage/_deserialization.py *)

Definition _int_or_none (value : option string) : result (option Z) :=
  match value with
  | None => Ok None
  | Some _ => Some <$> int value
  end.

(** Modelled from the spec: [_str_or_none] of _common_conversion.py, the
    identity / string-or-none conversion of section 4.1. *)
Definition _str_or_none (value : option string) : option string := value.

Inductive converter : Set :=
| conv_parse          (* parser.parse *)
| conv_str_or_none    (* _str_or_none *)
| conv_int_or_none.   (* _int_or_none *)

Definition convert (c : converter) (value : option string) : result pyval :=
  match c with
  | conv_parse => PyDate <$> parser_parse value
  | conv_str_or_none => Ok (from_option PyStr PyNone (_str_or_none value))
  | conv_int_or_none => from_option PyInt PyNone <$> _int_or_none value
  end.

Definition GET_PROPERTIES_ATTRIBUTE_MAP_items
  : list (string * (option string * string * converter)) :=
  [ ("last-modified", (None, "last_modified", conv_parse));
    ("etag", (None, "etag", conv_str_or_none));
    ("x-ms-blob-type", (None, "blob_type", conv_str_or_none));
    ("content-length", (None, "content_length", conv_int_or_none));
    ("x-ms-blob-sequence-number",
      (None, "page_blob_sequence_number", conv_int_or_none));
    ("x-ms-blob-committed-block-count",
      (None, "append_blob_committed_block_count", conv_int_or_none));
    ("content-type", (Some "content_settings", "content_type", conv_str_or_none));
    ("cache-control", (Some "content_settings", "cache_control", conv_str_or_none));
    ("content-encoding",
      (Some "content_settings", "content_encoding", conv_str_or_none));
    ("content-disposition",
      (Some "content_settings", "content_disposition", conv_str_or_none));
    ("content-language",
      (Some "content_settings", "content_language", conv_str_or_none));
    ("content-md5", (Some "content_settings", "content_md5", conv_str_or_none));
    ("x-ms-lease-status", (Some "lease", "status", conv_str_or_none));
    ("x-ms-lease-state", (Some "lease", "state", conv_str_or_none));
    ("x-ms-lease-duration", (Some "lease", "duration", conv_str_or_none));
    ("x-ms-copy-id", (Some "copy", "id", conv_str_or_none));
    ("x-ms-copy-source", (Some "copy", "source", conv_str_or_none));
    ("x-ms-copy-status", (Some "copy", "status", conv_str_or_none));
    ("x-ms-copy-progress", (Some "copy", "progress", conv_str_or_none));
    ("x-ms-copy-completion-time",
      (Some "copy", "completion_time", conv_str_or_none));
    ("x-ms-copy-status-description",
      (Some "copy", "status_description", conv_str_or_none)) ].

Definition GET_PROPERTIES_ATTRIBUTE_MAP
  : gmap string (option string * string * converter) :=
  list_to_map GET_PROPERTIES_ATTRIBUTE_MAP_items.

#[local] Arguments GET_PROPERTIES_ATTRIBUTE_MAP : simpl never.

(** The header names the table knows. *)
Definition table_keys : list string := GET_PROPERTIES_ATTRIBUTE_MAP_items.*1.

(** [response.headers]: an attribute access, which None does not support. *)
Definition response_headers (response : option HTTPResponse)
  : result (option (list header)) :=
  headers <$> deref response.

(** The guard [response is None and response.headers is not None]; [and]
    evaluates its right operand only when the left one is true. *)
Definition _parse_properties_guard (response : option HTTPResponse)
  : result bool :=
  if bool_decide (response = None)
  then h ← response_headers response; Ok (bool_decide (h <> None))
  else Ok false.

(** [getattr(props, sub)] followed by [setattr(attr, name, v)]: the nested
    record is updated in place, so the update shows on [props]. *)
Definition getattr_sub (props : Properties) (sub : string)
  : result (gmap string pyval) :=
  from_option Ok (Raise AttributeError) (subrecords props !! sub).

Definition setattr_top (props : Properties) (name : string) (v : pyval)
  : Properties :=
  mk_properties (<[name := v]> (attrs props)) (subrecords props).

Definition setattr_sub (props : Properties) (sub : string)
    (attr : gmap string pyval) (name : string) (v : pyval) : Properties :=
  mk_properties (attrs props) (<[sub := <[name := v]> attr]> (subrecords props)).

(** One turn of the loop over [response.headers]. *)
Definition _parse_properties_header
    (st : Properties * gmap string (option string)) (h : header)
  : result (Properties * gmap string (option string)) :=
  let '(props, metadata) := st in
  let '(key, value) := h in
  match GET_PROPERTIES_ATTRIBUTE_MAP !! key with
  | Some (None, name, conv) =>
      v ← convert conv value;
      Ok (setattr_top props name v, metadata)
  | Some (Some sub, name, conv) =>
      attr ← getattr_sub props sub;
      v ← convert conv value;
      Ok (setattr_sub props sub attr name v, metadata)
  | None =>
      if startswith key "x-ms-meta-"
      then Ok (props, <[key := _str_or_none value]> metadata)
      else Ok (props, metadata)
  end.

#[local] Arguments _parse_properties_header : simpl never.

(** [properties_class] is given by the instance its call returns. *)
Definition _parse_properties (response : option HTTPResponse)
    (properties_class : Properties)
  : result (option Properties * option (gmap string (option string))) :=
  g ← _parse_properties_guard response;
  if (g : bool) then Ok (None, None)
  else
    let props := properties_class in
    let metadata : gmap string (option string) := ∅ in
    hs ← response_headers response;
    match hs with
    | None => Raise TypeError
    | Some l =>
        '(props', metadata') ← for_each _parse_properties_header l (props, metadata);
        Ok (Some props', Some metadata')
    end.

(** [e.find(t).text]: fails when no child is tagged [t]. *)
Definition find_text (e : Element) (t : string) : result (option string) :=
  text <$> deref (find e t).

Definition _convert_xml_to_signed_identifier (signed_identifier_element : Element)
  : result (option string * AccessPolicy) :=
  id ← find_text signed_identifier_element "Id";
  let access_policy := AccessPolicy_new in
  let access_policy_element := find signed_identifier_element "AccessPolicy" in
  ape ← deref access_policy_element;
  access_policy ←
    match find ape "Start" with
    | Some start_element =>
        d ← parser_parse (text start_element);
        Ok (mk_access_policy (ap_permission access_policy)
              (ap_expiry access_policy) (Some d))
    | None => Ok access_policy
    end;
  access_policy ←
    match find ape "Expiry" with
    | Some expiry_element =>
        d ← parser_parse (text expiry_element);
        Ok (mk_access_policy (ap_permission access_policy)
              (Some d) (ap_start access_policy))
    | None => Ok access_policy
    end;
  let access_policy :=
    mk_access_policy (findtext ape "Permission")
      (ap_expiry access_policy) (ap_start access_policy) in
  Ok (id, access_policy).

Definition _convert_xml_to_signed_identifiers (xml : string)
  : result (gmap (option string) AccessPolicy) :=
  list_element ← fromstring xml;
  for_each
    (fun signed_identifiers signed_identifier_element =>
       '(id, access_policy) ←
         _convert_xml_to_signed_identifier signed_identifier_element;
       Ok (<[id := access_policy]> signed_identifiers))
    (findall list_element "SignedIdentifier") ∅.

(** [value.lower() == 'true'] *)
Definition _bool (value : option string) : result bool :=
  v ← deref value; Ok (String.eqb (lower v) "true").

Definition _convert_xml_to_retention_policy (xml : option Element)
    (retention_policy : RetentionPolicy) : result RetentionPolicy :=
  x ← deref xml;
  enabled ← find_text x "Enabled" ≫= _bool;
  let retention_policy :=
    mk_retention_policy (Some enabled) (rp_days retention_policy) in
  match find x "Days" with
  | Some days_element =>
      days ← int (text days_element);
      Ok (mk_retention_policy (rp_enabled retention_policy) (Some days))
  | None => Ok retention_policy
  end.

Definition _convert_xml_to_metrics (xml : Element) (metrics : Metrics)
  : result Metrics :=
  version ← find_text xml "Version";
  enabled ← find_text xml "Enabled" ≫= _bool;
  include_apis ←
    match find xml "IncludeAPIs" with
    | Some include_apis_element => Some <$> _bool (text include_apis_element)
    | None => Ok (met_include_apis metrics)
    end;
  retention_policy ←
    _convert_xml_to_retention_policy (find xml "RetentionPolicy")
      (met_retention_policy metrics);
  Ok (mk_metrics version (Some enabled) include_apis retention_policy).

Definition _convert_xml_to_logging (logging : Element) : result Logging :=
  let l := Logging_new in
  version ← find_text logging "Version";
  delete ← find_text logging "Delete" ≫= _bool;
  read ← find_text logging "Read" ≫= _bool;
  write ← find_text logging "Write" ≫= _bool;
  retention_policy ←
    _convert_xml_to_retention_policy (find logging "RetentionPolicy")
      (log_retention_policy l);
  Ok (mk_logging version (Some delete) (Some read) (Some write) retention_policy).

(** [e.find(t).text.split(',')] *)
Definition find_text_split (e : Element) (t : string) : result (list string) :=
  split "," <$> (find_text e t ≫= deref).

Definition _convert_xml_to_cors_rule (rule : Element) : result CorsRule :=
  allowed_origins ← find_text_split rule "AllowedOrigins";
  allowed_methods ← find_text_split rule "AllowedMethods";
  max_age_in_seconds ← find_text rule "MaxAgeInSeconds" ≫= int;
  let cors_rule := CorsRule_new allowed_origins allowed_methods max_age_in_seconds in
  exposed_headers ← find_text rule "ExposedHeaders";
  let cors_rule :=
    match exposed_headers with
    | Some e =>
        mk_cors_rule (cors_allowed_origins cors_rule)
          (cors_allowed_methods cors_rule) (cors_max_age_in_seconds cors_rule)
          (Some (split "," e)) (cors_allowed_headers cors_rule)
    | None => cors_rule
    end in
  allowed_headers ← find_text rule "AllowedHeaders";
  let cors_rule :=
    match allowed_headers with
    | Some a =>
        mk_cors_rule (cors_allowed_origins cors_rule)
          (cors_allowed_methods cors_rule) (cors_max_age_in_seconds cors_rule)
          (cors_exposed_headers cors_rule) (Some (split "," a))
    | None => cors_rule
    end in
  Ok cors_rule.

Definition _convert_xml_to_service_properties (xml : string)
  : result ServiceProperties :=
  service_properties_element ← fromstring xml;
  let service_properties := ServiceProperties_new in
  logging ←
    match find service_properties_element "Logging" with
    | Some logging => Some <$> _convert_xml_to_logging logging
    | None => Ok (sp_logging service_properties)
    end;
  hour_metrics ←
    match find service_properties_element "HourMetrics" with
    | Some hour_metrics_element =>
        Some <$> _convert_xml_to_metrics hour_metrics_element Metrics_new
    | None => Ok (sp_hour_metrics service_properties)
    end;
  minute_metrics ←
    match find service_properties_element "MinuteMetrics" with
    | Some minute_metrics_element =>
        Some <$> _convert_xml_to_metrics minute_metrics_element Metrics_new
    | None => Ok (sp_minute_metrics service_properties)
    end;
  cors ←
    match find service_properties_element "Cors" with
    | Some cors => Some <$> mapM _convert_xml_to_cors_rule (findall cors "CorsRule")
    | None => Ok (sp_cors service_properties)
    end;
  let target_version :=
    match find service_properties_element "DefaultServiceVersion" with
    | Some target_version => text target_version
    | None => sp_target_version service_properties
    end in
  Ok (mk_service_properties logging hour_metrics minute_metrics cors target_version).

(** *** azure/storage/file/_deserialization.py *)

(** The guard [response is None or response.body is None]; when it holds
    the parser returns [response]. *)
Definition body_of (response : option HTTPResponse) : option string :=
  r ← response; body r.

Definition _convert_xml_to_share (share_element : Element) : result Share :=
  let share := Share_new in
  let name := findtext share_element "Name" in
  let metadata :=
    match find share_element "Metadata" with
    | Some metadata_root_element =>
        Some (foldl (fun (m : gmap string (option string)) metadata_element =>
                       <[tag metadata_element := text metadata_element]> m)
                    ∅ (children metadata_root_element))
    | None => share_metadata share
    end in
  let properties_element := find share_element "Properties" in
  last_modified ←
    (flip findtext "Last-Modified" <$> deref properties_element) ≫= parser_parse;
  etag ← flip findtext "Etag" <$> deref properties_element;
  quota ← (flip findtext "Quota" <$> deref properties_element) ≫= int;
  Ok (mk_share name (mk_share_properties (Some last_modified) etag (Some quota))
        metadata).

Definition _convert_xml_to_shares (response : option HTTPResponse)
  : result (listing (_list Share)) :=
  match body_of response with
  | None => Ok (Passthrough response)
  | Some response_body =>
      list_element ← fromstring response_body;
      let next_marker := or_None (findtext list_element "NextMarker") in
      let shares_element := find list_element "Shares" in
      share_elements ← flip findall "Share" <$> deref shares_element;
      shares ← mapM _convert_xml_to_share share_elements;
      Ok (Parsed (mk_list shares next_marker))
  end.

Definition _convert_xml_to_file (file_element : Element) : result File :=
  let name := findtext file_element "Name" in
  let properties_element := find file_element "Properties" in
  content_length ←
    (flip findtext "Content-Length" <$> deref properties_element) ≫= int;
  Ok (mk_file name (mk_file_properties (Some content_length))).

Definition _convert_xml_to_directory (directory_element : Element) : Directory :=
  mk_directory (findtext directory_element "Name").

Definition _convert_xml_to_directories_and_files (response : option HTTPResponse)
  : result (listing FileAndDirectoryResults) :=
  match body_of response with
  | None => Ok (Passthrough response)
  | Some response_body =>
      list_element ← fromstring response_body;
      let next_marker := or_None (findtext list_element "NextMarker") in
      let entries_element := find list_element "Entries" in
      file_elements ← flip findall "File" <$> deref entries_element;
      files ← mapM _convert_xml_to_file file_elements;
      directory_elements ← flip findall "Directory" <$> deref entries_element;
      let directories := _convert_xml_to_directory <$> directory_elements in
      Ok (Parsed (mk_entries files directories next_marker))
  end.

Definition _convert_xml_to_range (range_element : Element) : result Range :=
  start ← int (findtext range_element "Start");
  end_ ← int (findtext range_element "End");
  Ok (mk_range start end_).

Definition _convert_xml_to_ranges (response : option HTTPResponse)
  : result (listing (list Range)) :=
  match body_of response with
  | None => Ok (Passthrough response)
  | Some response_body =>
      ranges_element ← fromstring response_body;
      ranges ← mapM _convert_xml_to_range (findall ranges_element "Range");
      Ok (Parsed ranges)
  end.

Definition _convert_xml_to_share_stats (response : option HTTPResponse)
  : result (listing ShareStats) :=
  match body_of response with
  | None => Ok (Passthrough response)
  | Some response_body =>
      share_stats_element ← fromstring response_body;
      share_usage ← int (findtext share_stats_element "ShareUsage");
      Ok (Parsed (mk_share_stats share_usage))
  end.

(** *** azure/storage/file/_serialization.py

    The builder reads the clock and calls two collaborators; the world it
    runs in carries the clock reading and the log of those calls. *)

Variable timestamp : Type.
Variable format_date_time : timestamp -> string.
Variable _update_storage_header : HTTPRequest -> HTTPRequest.

(** The authentication collaborator: what its [sign_request] makes of the
    request it is handed. *)
Record Authentication : Type := mk_authentication {
  sign_request : HTTPRequest -> HTTPRequest
}.

Inductive call : Type :=
| call_update_storage_header (request : HTTPRequest)
| call_time
| call_sign_request (request : HTTPRequest).

Record World : Type := mk_world {
  clock : timestamp;
  calls : list call
}.

Definition IO (A : Type) : Type := World -> A * World.

#[local] Instance IO_ret : MRet IO := fun A a w => (a, w).
#[local] Instance IO_bind : MBind IO := fun A B f m w =>
  let '(a, w') := m w in f a w'.

Definition logged {A} (c : call) (a : A) : IO A :=
  fun w => (a, mk_world (clock w) (calls w ++ [c])).

Definition time : IO timestamp :=
  fun w => logged call_time (clock w) w.

Definition do_update_storage_header (request : HTTPRequest) : IO HTTPRequest :=
  logged (call_update_storage_header request) (_update_storage_header request).

Definition do_sign_request (authentication : Authentication)
    (request : HTTPRequest) : IO HTTPRequest :=
  logged (call_sign_request request) (sign_request authentication request).

(** [request.headers.append(h)] *)
Definition headers_append (request : HTTPRequest) (h : string * string)
  : HTTPRequest :=
  mk_request (req_method request) (req_host request) (req_path request)
    (req_headers request ++ [h]) (req_body request).

Definition _update_storage_file_header (request : HTTPRequest)
    (authentication : Authentication) : IO (list (string * string)) :=
  request ← do_update_storage_header request;
  t ← time;
  let current_time := format_date_time t in
  let request := headers_append request ("x-ms-date", current_time) in
  let request :=
    headers_append request
      ("Content-Type", "application/octet-stream Charset=UTF-8") in
  request ← do_sign_request authentication request;
  mret (req_headers request).

(** *** What the claims say, in terms of the element tree *)

(** The continuation marker [m] read from the listing [root]: null when
    the NextMarker element is absent or empty, its text otherwise, and
    never the empty string. *)
Definition marker_law (root : Element) (m : option string) : Prop :=
  m <> Some "" /\
  (find root "NextMarker" = None -> m = None) /\
  (forall e, find root "NextMarker" = Some e ->
             text e = None \/ text e = Some "" -> m = None) /\
  (forall e s, find root "NextMarker" = Some e ->
               text e = Some s -> s <> "" -> m = Some s).

(** An optional timestamp child [t] of [e]: unset when the element is
    absent, the parsed text of the element when it is present. *)
Definition optional_timestamp (e : Element) (t : string) : result (option datetime) :=
  match find e t with
  | Some c => Some <$> parser_parse (text c)
  | None => Ok None
  end.

(** The requests handed to [sign_request], in call order. *)
Definition signed_requests (cs : list call) : list HTTPRequest :=
  omap (fun c => match c with call_sign_request r => Some r | _ => None end) cs.

(** *** azure/storage/file/_deserialization.py, [_parse_file]

    The File class is not among the source files: the file that
    [File(response.body, properties, metadata)] builds is given by the
    three arguments of the constructor call. *)
Variable FileObject : Type.
Variable File_init :
  option string -> option Properties -> option (gmap string (option string))
  -> FileObject.

(** [FileProperties] is given by the instance its call returns. *)
Definition _parse_file (response : option HTTPResponse)
    (FileProperties_class : Properties) : result FileObject :=
  '(properties, metadata) ← _parse_properties response FileProperties_class;
  b ← body <$> deref response;
  Ok (File_init b properties metadata).

(** *** What the further properties say *)

(** The field a table entry writes, read back from a properties object:
    [getattr(props, name)], or [getattr(getattr(props, sub), name)]. *)
Definition slot_value (props : Properties) (target : option string) (name : string)
  : option pyval :=
  match target with
  | None => attrs props !! name
  | Some sub => subrecords props !! sub ≫= (fun attr => attr !! name)
  end.

(** ** Properties of the loops and of the result monad *)

Lemma for_each_app {S X : Type} (f : S -> X -> result S) (xs ys : list X) (s : S) :
  for_each f (xs ++ ys) s = (s' ← for_each f xs s; for_each f ys s').
Proof.
  revert s. induction xs as [|x xs IH]; intros s; simpl; [done|].
  destruct (f s x) as [s'|e]; simpl; [apply IH | done].
Qed.

Lemma bind_Ok_inv {A B : Type} (m : result A) (k : A -> result B) (b : B) :
  m ≫= k = Ok b -> exists a, m = Ok a /\ k a = Ok b.
Proof. destruct m as [a|e]; simpl; [eauto | discriminate]. Qed.

Lemma fmap_Ok_inv {A B : Type} (f : A -> B) (m : result A) (b : B) :
  f <$> m = Ok b -> exists a, m = Ok a /\ b = f a.
Proof. destruct m as [a|e]; simpl; [|discriminate]. intros [= <-]. eauto. Qed.

(** ** The header property extractor *)

Lemma table_lookup_None (key : string) :
  key ∉ table_keys <-> GET_PROPERTIES_ATTRIBUTE_MAP !! key = None.
Proof.
  unfold GET_PROPERTIES_ATTRIBUTE_MAP, table_keys.
  apply not_elem_of_list_to_map.
Qed.

Lemma table_keys_lower_case : Forall (fun k => lower k = k) table_keys.
Proof. apply (bool_decide_unpack _). vm_compute. exact I. Qed.

Lemma table_keys_not_metadata :
  Forall (fun k => startswith k "x-ms-meta-" = false) table_keys.
Proof. apply (bool_decide_unpack _). vm_compute. exact I. Qed.

Lemma mixed_case_not_in_table (key : string) :
  lower key <> key -> key ∉ table_keys.
Proof.
  intros Hne Hin.
  pose proof table_keys_lower_case as Hall.
  rewrite Forall_forall in Hall. auto.
Qed.

Lemma metadata_key_not_in_table (key : string) :
  startswith key "x-ms-meta-" = true -> GET_PROPERTIES_ATTRIBUTE_MAP !! key = None.
Proof.
  intros Hp. apply table_lookup_None. intros Hin.
  pose proof table_keys_not_metadata as Hall.
  rewrite Forall_forall in Hall. specialize (Hall _ Hin). congruence.
Qed.

Lemma table_lookup_in_items key entry :
  GET_PROPERTIES_ATTRIBUTE_MAP !! key = Some entry ->
  (key, entry) ∈ GET_PROPERTIES_ATTRIBUTE_MAP_items.
Proof. apply elem_of_list_to_map_2. Qed.

#[local] Opaque GET_PROPERTIES_ATTRIBUTE_MAP.

(** A header outside the table and outside the metadata prefix leaves the
    accumulated state as it was. *)
Lemma _parse_properties_header_ignored st key value :
  key ∉ table_keys -> startswith key "x-ms-meta-" = false ->
  _parse_properties_header st (key, value) = Ok st.
Proof.
  intros Hk Hp. destruct st as [props metadata]. unfold _parse_properties_header.
  apply table_lookup_None in Hk. rewrite Hk, Hp. done.
Qed.

(** The metadata branch stores under the header name as received. *)
Lemma _parse_properties_header_metadata props metadata key value :
  startswith key "x-ms-meta-" = true ->
  _parse_properties_header (props, metadata) (key, value)
  = Ok (props, <[key := value]> metadata).
Proof.
  intros Hp. unfold _parse_properties_header.
  rewrite (metadata_key_not_in_table _ Hp), Hp. done.
Qed.

(** A turn of the loop touches the metadata under its own header name only. *)
Lemma _parse_properties_header_other props metadata h props' metadata' key :
  _parse_properties_header (props, metadata) h = Ok (props', metadata') ->
  key <> h.1 -> metadata' !! key = metadata !! key.
Proof.
  destruct h as [k v]. unfold _parse_properties_header. intros H Hne.
  cbn [fst] in Hne.
  destruct (GET_PROPERTIES_ATTRIBUTE_MAP !! k) as [[[[sub|] name] conv]|].
  - apply bind_Ok_inv in H as (attr & _ & H).
    apply bind_Ok_inv in H as (v' & _ & H). by injection H as _ <-.
  - apply bind_Ok_inv in H as (v' & _ & H). by injection H as _ <-.
  - destruct (startswith k "x-ms-meta-"); injection H as _ <-; [|done].
    by rewrite lookup_insert_ne.
Qed.

Lemma for_each_header_other hs : forall props metadata props' metadata' key,
  for_each _parse_properties_header hs (props, metadata) = Ok (props', metadata') ->
  key ∉ hs.*1 -> metadata' !! key = metadata !! key.
Proof.
  induction hs as [|h hs IH]; cbn [for_each fmap list_fmap];
    intros props metadata props' metadata' key H Hk.
  - by injection H as _ <-.
  - apply not_elem_of_cons in Hk as [Hne Hk].
    apply bind_Ok_inv in H as ([p1 m1] & H1 & H).
    rewrite (IH _ _ _ _ _ H Hk).
    eapply _parse_properties_header_other; eauto.
Qed.

(** What [_parse_properties] does on a response that carries headers. *)
Lemma _parse_properties_unfold hs b properties_class :
  _parse_properties (Some (mk_response (Some hs) b)) properties_class
  = (st ← for_each _parse_properties_header hs (properties_class, ∅);
     Ok (Some st.1, Some st.2)).
Proof.
  unfold _parse_properties. simpl.
  destruct (for_each _ _ _) as [[p m]|e]; done.
Qed.

(** C3: the guard [response is None and response.headers is not None] is
    never true: on an absent response it fails while reading
    [response.headers], on a present one it is false.  Hence
    [_parse_properties] on an absent response raises an AttributeError, and
    no call returns the pair (None, None). *)
Theorem _parse_properties_guard_never_true :
  (forall response, _parse_properties_guard response <> Ok true) /\
  (forall properties_class,
      _parse_properties None properties_class = Raise AttributeError) /\
  (forall response properties_class,
      _parse_properties response properties_class <> Ok (None, None)).
Proof.
  split; [|split].
  - intros [r|]; cbv; discriminate.
  - reflexivity.
  - intros [[[hs|] b]|] properties_class.
    + rewrite _parse_properties_unfold.
      destruct (for_each _ _ _) as [st|e]; simpl; discriminate.
    + cbv. discriminate.
    + cbv. discriminate.
Qed.

(** C10: the table lookup and the prefix test compare the header name as
    received.  A header whose name is none of the table's keys and does not
    start with x-ms-meta- changes neither the properties nor the metadata,
    so the extraction gives what it gives without that header. *)
Theorem unmatched_header_is_ignored
    key value (hs1 hs2 : list header) b properties_class :
  key ∉ table_keys ->
  startswith key "x-ms-meta-" = false ->
  (forall st, _parse_properties_header st (key, value) = Ok st) /\
  _parse_properties (Some (mk_response (Some (hs1 ++ (key, value) :: hs2)) b))
    properties_class
  = _parse_properties (Some (mk_response (Some (hs1 ++ hs2)) b)) properties_class.
Proof.
  intros Hk Hp. split.
  - intros st. by apply _parse_properties_header_ignored.
  - rewrite !_parse_properties_unfold, !for_each_app.
    destruct (for_each _ hs1 _) as [st|e]; simpl; [|done].
    by rewrite _parse_properties_header_ignored.
Qed.

(** C1 (amended): a header whose name starts with x-ms-meta- is stored in
    the metadata under its whole name, prefix included, with the header
    value; when the name repeats, the last header wins. *)
Theorem metadata_entry_keeps_header_name
    (hs1 : list header) key value (hs2 : list header) b properties_class
    props metadata :
  startswith key "x-ms-meta-" = true ->
  key ∉ hs2.*1 ->
  _parse_properties (Some (mk_response (Some (hs1 ++ (key, value) :: hs2)) b))
    properties_class = Ok (props, metadata) ->
  exists m, metadata = Some m /\ m !! key = Some value.
Proof.
  intros Hp Hlast. rewrite _parse_properties_unfold, for_each_app.
  intros H. apply bind_Ok_inv in H as ([p2 m2] & H & [= <- <-]).
  apply bind_Ok_inv in H as ([p0 m0] & _ & H). simpl in H.
  rewrite _parse_properties_header_metadata in H by done. simpl in H.
  exists m2. split; [done|].
  rewrite (for_each_header_other _ _ _ _ _ _ H Hlast).
  apply lookup_insert_eq.
Qed.

(** ** Loops that build a list *)

Lemma mapM_Ok_Forall2 {A B : Type} (f : A -> result B) (l : list A) (k : list B) :
  mapM f l = Ok k <-> Forall2 (fun x y => f x = Ok y) l k.
Proof.
  split.
  - revert k. induction l as [|x l IH]; simpl; intros k H.
    + injection H as <-. constructor.
    + apply bind_Ok_inv in H as (y & Hy & H).
      apply bind_Ok_inv in H as (k' & Hk' & [= <-]).
      constructor; auto.
  - induction 1 as [|x y l k Hxy _ IH]; simpl; [done|].
    rewrite Hxy. simpl. rewrite IH. done.
Qed.

Lemma mapM_raises {A B : Type} (f : A -> result B) (l : list A) (x : A) :
  x ∈ l -> raises (f x) -> raises (mapM f l).
Proof.
  intros Hin [e He]. induction Hin as [x l|x y l _ IH]; cbn [mapM].
  - rewrite He. by exists e.
  - destruct (f y) as [b|e']; [|by exists e'].
    destruct (IH He) as [e'' IH']. exists e''. cbn [mbind result_bind].
    by rewrite IH'.
Qed.

Lemma raises_bind {A B : Type} (m : result A) (k : A -> result B) :
  raises m -> raises (m ≫= k).
Proof. intros [e ->]. by exists e. Qed.

Lemma Ok_not_raises {A : Type} (a : A) : ~ raises (Ok a).
Proof. intros [e He]. discriminate. Qed.

Lemma or_None_not_empty (x : option string) : or_None x <> Some "".
Proof. destruct x as [[|c s]|]; simpl; discriminate. Qed.

(** ** The listing parsers *)

Lemma body_of_None (response : option HTTPResponse) :
  body_of response = None <->
  response = None \/ exists r, response = Some r /\ body r = None.
Proof.
  destruct response as [r|]; simpl.
  - split; [eauto|]. intros [?|(r' & [= <-] & ?)]; done.
  - split; [eauto|done].
Qed.

(** C2: each of the four listing parsers, given an absent response or a
    response whose body is absent, returns the response it was given. *)
Theorem absent_body_returns_response (response : option HTTPResponse) :
  response = None \/ (exists r, response = Some r /\ body r = None) ->
  _convert_xml_to_shares response = Ok (Passthrough response) /\
  _convert_xml_to_directories_and_files response = Ok (Passthrough response) /\
  _convert_xml_to_ranges response = Ok (Passthrough response) /\
  _convert_xml_to_share_stats response = Ok (Passthrough response).
Proof.
  intros H. apply body_of_None in H.
  unfold _convert_xml_to_shares, _convert_xml_to_directories_and_files,
    _convert_xml_to_ranges, _convert_xml_to_share_stats.
  rewrite H. done.
Qed.

Lemma fromstring_Ok_inv xml root :
  fromstring xml = Ok root -> fromstring_opt xml = Some root.
Proof.
  unfold fromstring. destruct (fromstring_opt xml); simpl; congruence.
Qed.

Lemma _convert_xml_to_shares_Parsed response shares :
  _convert_xml_to_shares response = Ok (Parsed shares) ->
  exists b root shares_element,
    body_of response = Some b /\ fromstring_opt b = Some root /\
    find root "Shares" = Some shares_element /\
    mapM _convert_xml_to_share (findall shares_element "Share") = Ok (items shares) /\
    next_marker shares = or_None (findtext root "NextMarker").
Proof.
  unfold _convert_xml_to_shares. destruct (body_of response) as [b|]; [|done].
  intros H. apply bind_Ok_inv in H as (root & Hroot & H).
  apply bind_Ok_inv in H as (ses & Hses & H).
  apply bind_Ok_inv in H as (l & Hl & [= <-]).
  apply fmap_Ok_inv in Hses as (se & Hse & ->).
  destruct (find root "Shares") as [se'|] eqn:Hfind; [|done].
  injection Hse as ->.
  exists b, root, se. repeat split; auto using fromstring_Ok_inv.
Qed.

Lemma _convert_xml_to_directories_and_files_Parsed response entries :
  _convert_xml_to_directories_and_files response = Ok (Parsed entries) ->
  exists b root entries_element,
    body_of response = Some b /\ fromstring_opt b = Some root /\
    find root "Entries" = Some entries_element /\
    mapM _convert_xml_to_file (findall entries_element "File") = Ok (files entries) /\
    directories entries
    = _convert_xml_to_directory <$> findall entries_element "Directory" /\
    entries_next_marker entries = or_None (findtext root "NextMarker").
Proof.
  unfold _convert_xml_to_directories_and_files.
  destruct (body_of response) as [b|]; [|done].
  intros H. apply bind_Ok_inv in H as (root & Hroot & H).
  apply bind_Ok_inv in H as (fes & Hfes & H).
  apply bind_Ok_inv in H as (l & Hl & H).
  apply bind_Ok_inv in H as (des & Hdes & [= <-]).
  apply fmap_Ok_inv in Hfes as (ee & Hee & ->).
  apply fmap_Ok_inv in Hdes as (ee' & Hee' & ->).
  destruct (find root "Entries") as [ee0|] eqn:Hfind; [|done].
  injection Hee as <-. injection Hee' as <-.
  exists b, root, ee0. repeat split; auto using fromstring_Ok_inv.
Qed.

Lemma or_None_findtext_marker_law root :
  marker_law root (or_None (findtext root "NextMarker")).
Proof.
  unfold marker_law, findtext. split; [apply or_None_not_empty|].
  destruct (find root "NextMarker") as [e|]; simpl.
  - split; [done|]. split.
    + intros e' [= <-] [-> | ->]; done.
    + intros e' s [= <-] -> Hs. destruct s; done.
  - split; [done|]. split; intros; discriminate.
Qed.

(** C5: when the shares listing or the directories-and-files listing
    parses to a collection, its next_marker is null if the NextMarker
    element is absent or empty, is the element's text if that text is not
    empty, and is never the empty string. *)
Theorem next_marker_null_or_non_empty response (m : option string) :
  (exists shares, _convert_xml_to_shares response = Ok (Parsed shares)
                  /\ next_marker shares = m) \/
  (exists entries, _convert_xml_to_directories_and_files response = Ok (Parsed entries)
                   /\ entries_next_marker entries = m) ->
  exists b root,
    body_of response = Some b /\ fromstring_opt b = Some root /\ marker_law root m.
Proof.
  intros [(shares & H & <-)|(entries & H & <-)].
  - apply _convert_xml_to_shares_Parsed in H as (b & root & se & Hb & Hr & _ & _ & ->).
    exists b, root. eauto using or_None_findtext_marker_law.
  - apply _convert_xml_to_directories_and_files_Parsed in H
      as (b & root & ee & Hb & Hr & _ & _ & _ & ->).
    exists b, root. eauto using or_None_findtext_marker_law.
Qed.

Lemma findall_filter (e : Element) (t : string) :
  findall e t = filter (fun c => tag c = t) (children e).
Proof.
  unfold findall. induction (children e) as [|c cs IH]; [done|].
  simpl. rewrite filter_cons, IH. unfold has_tag.
  destruct (String.eqb_spec (tag c) t); case_decide; done.
Qed.

Lemma _convert_xml_to_file_name e f :
  _convert_xml_to_file e = Ok f -> file_name f = findtext e "Name".
Proof.
  unfold _convert_xml_to_file. intros H.
  apply bind_Ok_inv in H as (n & _ & [= <-]). done.
Qed.

(** C8: the files of the result are the File children of Entries, each
    converted, in document order; the directories are the Directory
    children, in document order.  For children File, Directory, File there
    are two files and one directory. *)
Theorem files_and_directories_in_document_order response entries :
  _convert_xml_to_directories_and_files response = Ok (Parsed entries) ->
  exists b root entries_element,
    body_of response = Some b /\ fromstring_opt b = Some root /\
    find root "Entries" = Some entries_element /\
    let file_elements := filter (fun e => tag e = "File") (children entries_element) in
    let directory_elements :=
      filter (fun e => tag e = "Directory") (children entries_element) in
    Forall2 (fun e f => _convert_xml_to_file e = Ok f) file_elements (files entries) /\
    file_name <$> files entries = flip findtext "Name" <$> file_elements /\
    directory_name <$> directories entries
    = flip findtext "Name" <$> directory_elements /\
    (tag <$> children entries_element = ["File"; "Directory"; "File"] ->
     length (files entries) = 2%nat /\ length (directories entries) = 1%nat).
Proof.
  intros H.
  apply _convert_xml_to_directories_and_files_Parsed in H
    as (b & root & ee & Hb & Hr & Hee & Hfiles & Hdirs & _).
  exists b, root, ee. repeat (split; [done|]).
  rewrite !findall_filter in *. cbv zeta.
  apply mapM_Ok_Forall2 in Hfiles.
  assert (Hnames : file_name <$> files entries
                   = flip findtext "Name"
                       <$> filter (fun e => tag e = "File") (children ee)).
  { clear -Hfiles. induction Hfiles as [|e f es fs Hef _ IH]; [done|].
    rewrite !fmap_cons, IH. f_equal. by apply _convert_xml_to_file_name. }
  assert (Hdnames : directory_name <$> directories entries
                    = flip findtext "Name"
                        <$> filter (fun e => tag e = "Directory") (children ee)).
  { rewrite Hdirs, <- list_fmap_compose. done. }
  repeat (split; [done|]).
  intros Htags.
  apply (f_equal length) in Hnames, Hdnames.
  rewrite !length_fmap in Hnames. rewrite !length_fmap in Hdnames.
  rewrite Hnames, Hdnames.
  destruct (children ee) as [|c1 [|c2 [|c3 [|c4 cs]]]]; try discriminate.
  injection Htags as H1 H2 H3.
  rewrite !filter_cons, filter_nil, H1, H2, H3. done.
Qed.

Lemma findtext_None e t : find e t = None -> findtext e t = None.
Proof. unfold findtext. by intros ->. Qed.

Lemma _convert_xml_to_share_raises se :
  find se "Properties" = None \/
  (exists pe, find se "Properties" = Some pe /\
              (find pe "Last-Modified" = None \/ find pe "Quota" = None)) ->
  raises (_convert_xml_to_share se).
Proof.
  unfold _convert_xml_to_share.
  intros [->|(pe & -> & [H|H])]; simpl.
  - by exists AttributeError.
  - rewrite (findtext_None _ _ H). by exists TypeError.
  - destruct (parser_parse _) as [d|e]; simpl; [|by exists e].
    rewrite (findtext_None _ _ H). by exists TypeError.
Qed.

Lemma _convert_xml_to_share_tolerant se s :
  _convert_xml_to_share se = Ok s ->
  share_name s = findtext se "Name" /\
  exists pe, find se "Properties" = Some pe /\
             share_etag (share_properties s) = findtext pe "Etag".
Proof.
  unfold _convert_xml_to_share. intros H.
  destruct (find se "Properties") as [pe|]; [|done]. simpl in H.
  apply bind_Ok_inv in H as (d & _ & H).
  apply bind_Ok_inv in H as (q & _ & [= <-]). simpl. eauto.
Qed.

Lemma mapM_returns {A B : Type} (f : A -> result B) (l : list A) :
  Forall (fun x => exists y, f x = Ok y) l -> exists k, mapM f l = Ok k.
Proof.
  induction 1 as [|x l [y Hy] _ [k Hk]].
  - by exists [].
  - exists (y :: k). apply mapM_Ok_Forall2.
    constructor; [done | by apply mapM_Ok_Forall2].
Qed.

(** A Share parses as soon as its Properties block has a Last-Modified that
    is a date and a Quota that is an integer; Name, Etag and Metadata play
    no part. *)
Lemma _convert_xml_to_share_returns se pe d q :
  find se "Properties" = Some pe ->
  parser_parse (findtext pe "Last-Modified") = Ok d ->
  int (findtext pe "Quota") = Ok q ->
  exists s, _convert_xml_to_share se = Ok s.
Proof.
  intros Hpe Hd Hq. unfold _convert_xml_to_share. rewrite Hpe.
  cbn [deref fmap result_fmap mbind result_bind flip]. rewrite Hd.
  cbn [mbind result_bind]. rewrite Hq. cbn [mbind result_bind]. eauto.
Qed.

(** C6 (amended): in a shares listing with a body, a Share element without
    its Properties block, or whose Properties block has no Last-Modified or
    no Quota, makes the parse fail.  A Share element without Name, or whose
    Properties block has no Etag, causes no error: the listing parses as
    soon as every Share has a Properties block with a Last-Modified that is
    a date and a Quota that is an integer, and each parsed share has its
    name and its etag null when the element is absent. *)
Theorem share_children_required_and_tolerated response b root shares_element :
  body_of response = Some b ->
  fromstring_opt b = Some root ->
  find root "Shares" = Some shares_element ->
  (forall se,
      se ∈ findall shares_element "Share" ->
      find se "Properties" = None \/
      (exists pe, find se "Properties" = Some pe /\
                  (find pe "Last-Modified" = None \/ find pe "Quota" = None)) ->
      raises (_convert_xml_to_shares response)) /\
  (forall shares,
      _convert_xml_to_shares response = Ok (Parsed shares) ->
      Forall2
        (fun se s =>
           share_name s = findtext se "Name" /\
           (find se "Name" = None -> share_name s = None) /\
           exists pe, find se "Properties" = Some pe /\
                      share_etag (share_properties s) = findtext pe "Etag" /\
                      (find pe "Etag" = None ->
                       share_etag (share_properties s) = None))
        (findall shares_element "Share") (items shares)) /\
  (Forall
     (fun se => exists pe d q,
                  find se "Properties" = Some pe /\
                  parser_parse (findtext pe "Last-Modified") = Ok d /\
                  int (findtext pe "Quota") = Ok q)
     (findall shares_element "Share") ->
   exists shares,
     _convert_xml_to_shares response = Ok (Parsed shares) /\
     Forall2
       (fun se s =>
          (find se "Name" = None -> share_name s = None) /\
          (forall pe, find se "Properties" = Some pe -> find pe "Etag" = None ->
                      share_etag (share_properties s) = None))
       (findall shares_element "Share") (items shares)).
Proof.
  intros Hb Hroot Hse.
  assert (Htolerated : forall shares,
    _convert_xml_to_shares response = Ok (Parsed shares) ->
    Forall2
      (fun se s =>
         share_name s = findtext se "Name" /\
         (find se "Name" = None -> share_name s = None) /\
         exists pe, find se "Properties" = Some pe /\
                    share_etag (share_properties s) = findtext pe "Etag" /\
                    (find pe "Etag" = None ->
                     share_etag (share_properties s) = None))
      (findall shares_element "Share") (items shares)).
  { intros shares H.
    apply _convert_xml_to_shares_Parsed in H
      as (b' & root' & se' & Hb' & Hroot' & Hse' & Hitems & _).
    assert (b' = b) as -> by congruence.
    assert (root' = root) as -> by congruence.
    assert (se' = shares_element) as -> by congruence.
    apply mapM_Ok_Forall2 in Hitems.
    eapply Forall2_impl; [exact Hitems|].
    intros se s Hs. simpl in Hs.
    apply _convert_xml_to_share_tolerant in Hs as (Hn & pe & Hpe & He).
    split; [done|]. split.
    + intros Hnone. by rewrite Hn, findtext_None.
    + exists pe. split; [done|]. split; [done|].
      intros Hnone. by rewrite He, findtext_None. }
  split; [|split; [exact Htolerated|]].
  - intros se Hin Hlack. unfold _convert_xml_to_shares, fromstring.
    rewrite Hb, Hroot. simpl. rewrite Hse. simpl.
    apply raises_bind, (mapM_raises _ _ se); [done|].
    by apply _convert_xml_to_share_raises.
  - intros Hall.
    destruct (mapM_returns _convert_xml_to_share (findall shares_element "Share"))
      as [l Hl].
    { eapply Forall_impl; [exact Hall|].
      intros se (pe & d & q & Hpe & Hd & Hq).
      by eapply _convert_xml_to_share_returns. }
    assert (Hparsed : _convert_xml_to_shares response
                      = Ok (Parsed (mk_list l (or_None (findtext root "NextMarker"))))).
    { unfold _convert_xml_to_shares, fromstring. rewrite Hb, Hroot.
      cbn [from_option mbind result_bind]. rewrite Hse.
      cbn [deref fmap result_fmap mbind result_bind flip]. by rewrite Hl. }
    eexists. split; [exact Hparsed|].
    eapply Forall2_impl; [exact (Htolerated _ Hparsed)|].
    intros se s (_ & Hname & pe & Hpe & _ & Hetag). split; [done|].
    intros pe' Hpe' Hnone. apply Hetag. congruence.
Qed.

(** ** The service-properties parser *)

Lemma find_text_absent e t : find e t = None -> find_text e t = Raise AttributeError.
Proof. unfold find_text. by intros ->. Qed.



Lemma _convert_xml_to_service_properties_cors_raises xml root cors rule :
  fromstring_opt xml = Some root ->
  find root "Cors" = Some cors ->
  rule ∈ findall cors "CorsRule" ->
  raises (_convert_xml_to_cors_rule rule) ->
  raises (_convert_xml_to_service_properties xml).
Proof.
  intros Hroot Hcors Hin Hrule.
  unfold _convert_xml_to_service_properties, fromstring.
  rewrite Hroot. cbn [from_option mbind result_bind].
  destruct (match find root "Logging" with Some _ => _ | None => _ end)
    as [l|e]; [|by exists e].
  destruct (match find root "HourMetrics" with Some _ => _ | None => _ end)
    as [h|e]; [|by exists e].
  destruct (match find root "MinuteMetrics" with Some _ => _ | None => _ end)
    as [m|e]; [|by exists e].
  rewrite Hcors.
  destruct (mapM_raises _ _ _ Hin Hrule) as [e ->]. by exists e.
Qed.


(** ** The access-policy parser *)

Lemma _convert_xml_to_signed_identifier_Ok se ide ape start expiry :
  find se "Id" = Some ide ->
  find se "AccessPolicy" = Some ape ->
  optional_timestamp ape "Start" = Ok start ->
  optional_timestamp ape "Expiry" = Ok expiry ->
  _convert_xml_to_signed_identifier se
  = Ok (text ide, mk_access_policy (findtext ape "Permission") expiry start).
Proof.
  unfold _convert_xml_to_signed_identifier, optional_timestamp, find_text.
  intros -> -> Hs He. cbn [fmap result_fmap deref mbind result_bind].
  destruct (find ape "Start") as [s|].
  - apply fmap_Ok_inv in Hs as (ds & -> & ->). cbn [mbind result_bind].
    destruct (find ape "Expiry") as [x|].
    + apply fmap_Ok_inv in He as (dx & -> & ->). done.
    + injection He as <-. done.
  - injection Hs as <-. cbn [mbind result_bind].
    destruct (find ape "Expiry") as [x|].
    + apply fmap_Ok_inv in He as (dx & -> & ->). done.
    + injection He as <-. done.
Qed.

Lemma signed_identifiers_loop ses : forall kvs (acc : gmap (option string) AccessPolicy),
  Forall2 (fun se kv => _convert_xml_to_signed_identifier se = Ok kv) ses kvs ->
  for_each
    (fun signed_identifiers signed_identifier_element =>
       '(id, access_policy) ←
         _convert_xml_to_signed_identifier signed_identifier_element;
       Ok (<[id := access_policy]> signed_identifiers))
    ses acc
  = Ok (foldl (fun m kv => <[kv.1 := kv.2]> m) acc kvs).
Proof.
  induction ses as [|se ses IH]; intros kvs acc H.
  - apply Forall2_nil_inv_l in H as ->. done.
  - apply Forall2_cons_inv_l in H as ([id p] & kvs' & Hse & H & ->).
    cbn [for_each foldl]. rewrite Hse. cbn [mbind result_bind]. by apply IH.
Qed.

Lemma foldl_insert_lookup_other (kvs : list (option string * AccessPolicy)) :
  forall (acc : gmap (option string) AccessPolicy) k,
    k ∉ kvs.*1 ->
    foldl (fun m kv => <[kv.1 := kv.2]> m) acc kvs !! k = acc !! k.
Proof.
  induction kvs as [|[k' p] kvs IH]; intros acc k Hk; [done|].
  rewrite fmap_cons in Hk. apply not_elem_of_cons in Hk as [Hne Hk].
  cbn [foldl]. rewrite IH by done. by apply lookup_insert_ne.
Qed.

(** C7: a SignedIdentifier whose AccessPolicy has no Permission child
    parses without an error to an AccessPolicy with a null permission; its
    start and expiry are the parsed Start and Expiry elements when these
    are present and stay unset when they are absent.  The policy is found
    in the result under the identifier's Id (the other identifiers being
    well formed, and none after it repeating the Id). *)
Theorem missing_permission_is_null
    xml root ses1 se ses2 kvs1 kvs2 ide ape start expiry :
  fromstring_opt xml = Some root ->
  findall root "SignedIdentifier" = ses1 ++ se :: ses2 ->
  Forall2 (fun s kv => _convert_xml_to_signed_identifier s = Ok kv) ses1 kvs1 ->
  Forall2 (fun s kv => _convert_xml_to_signed_identifier s = Ok kv) ses2 kvs2 ->
  text ide ∉ kvs2.*1 ->
  find se "Id" = Some ide ->
  find se "AccessPolicy" = Some ape ->
  find ape "Permission" = None ->
  optional_timestamp ape "Start" = Ok start ->
  optional_timestamp ape "Expiry" = Ok expiry ->
  _convert_xml_to_signed_identifier se
  = Ok (text ide, mk_access_policy None expiry start) /\
  (find ape "Start" = None -> start = None) /\
  (find ape "Expiry" = None -> expiry = None) /\
  exists d,
    _convert_xml_to_signed_identifiers xml = Ok d /\
    d !! text ide = Some (mk_access_policy None expiry start).
Proof.
  intros Hroot Hall H1 H2 Hlast Hid Hape Hperm Hstart Hexpiry.
  pose proof (_convert_xml_to_signed_identifier_Ok _ _ _ _ _ Hid Hape Hstart Hexpiry)
    as Hse.
  rewrite (findtext_None _ _ Hperm) in Hse.
  split; [done|]. split; [|split].
  - intros Hn. unfold optional_timestamp in Hstart. rewrite Hn in Hstart.
    by injection Hstart.
  - intros Hn. unfold optional_timestamp in Hexpiry. rewrite Hn in Hexpiry.
    by injection Hexpiry.
  - unfold _convert_xml_to_signed_identifiers, fromstring.
    rewrite Hroot. cbn [from_option mbind result_bind]. rewrite Hall.
    eexists. split.
    + apply signed_identifiers_loop.
      apply Forall2_app; [exact H1|]. constructor; [exact Hse | exact H2].
    + rewrite foldl_app. cbn [foldl].
      rewrite foldl_insert_lookup_other by done.
      cbn [fst snd]. apply lookup_insert_eq.
Qed.

(** ** The outgoing header builder *)

(** C9: the builder passes the request through the shared header-update
    step, reads the clock once, appends x-ms-date with the formatted clock
    reading and then Content-Type: application/octet-stream Charset=UTF-8,
    hands the request so assembled to sign_request, exactly once, and
    returns the headers of the request as the signer left it. *)
Theorem _update_storage_file_header_spec request authentication (w : World) :
  let updated := _update_storage_header request in
  let assembled :=
    mk_request (req_method updated) (req_host updated) (req_path updated)
      (req_headers updated
         ++ [("x-ms-date", format_date_time (clock w));
             ("Content-Type", "application/octet-stream Charset=UTF-8")])
      (req_body updated) in
  let new_calls :=
    [call_update_storage_header request; call_time; call_sign_request assembled] in
  _update_storage_file_header request authentication w
  = (req_headers (sign_request authentication assembled),
     mk_world (clock w) (calls w ++ new_calls))
  /\ signed_requests new_calls = [assembled].
Proof.
  cbv zeta. split; [|reflexivity].
  unfold _update_storage_file_header, do_update_storage_header, do_sign_request,
    time, logged, headers_append, mbind, IO_bind, mret, IO_ret.
  cbn. rewrite <- !app_assoc. reflexivity.
Qed.

(** The listing parses as soon as every File has a Properties block with an
    integer Content-Length. *)
Lemma _convert_xml_to_directories_and_files_returns response b root entries_element :
  body_of response = Some b ->
  fromstring_opt b = Some root ->
  find root "Entries" = Some entries_element ->
  Forall (fun fe => exists pe n, find fe "Properties" = Some pe /\
                                  int (findtext pe "Content-Length") = Ok n)
         (findall entries_element "File") ->
  exists entries,
    _convert_xml_to_directories_and_files response = Ok (Parsed entries).
Proof.
  intros Hb Hroot Hee Hfiles.
  assert (exists fs, mapM _convert_xml_to_file (findall entries_element "File") = Ok fs)
    as [fs Hfs].
  { induction Hfiles as [|fe fes (pe & n & Hpe & Hn) _ [fs IH]].
    - by exists [].
    - exists (mk_file (findtext fe "Name") (mk_file_properties (Some n)) :: fs).
      apply mapM_Ok_Forall2. constructor; [|by apply mapM_Ok_Forall2].
      unfold _convert_xml_to_file. rewrite Hpe.
      cbn [deref fmap result_fmap mbind result_bind flip].
      rewrite Hn. reflexivity. }
  unfold _convert_xml_to_directories_and_files, fromstring.
  rewrite Hb, Hroot. cbn [from_option mbind result_bind].
  rewrite Hee. cbn [deref fmap result_fmap mbind result_bind flip].
  rewrite Hfs. cbn [mbind result_bind]. eauto.
Qed.

(** ** Further properties of the header property extractor *)

Lemma for_each_invariant {S X : Type} (Inv : S -> Prop)
    (f : S -> X -> result S) (xs : list X) :
  (forall s x s', x ∈ xs -> Inv s -> f s x = Ok s' -> Inv s') ->
  forall s s', Inv s -> for_each f xs s = Ok s' -> Inv s'.
Proof.
  induction xs as [|x xs IH]; intros Hstep s s' Hs H; cbn [for_each] in H.
  - by injection H as <-.
  - apply bind_Ok_inv in H as (s1 & H1 & H).
    apply (IH (fun s0 y s0' Hy => Hstep s0 y s0' (list_elem_of_further _ _ _ Hy)) s1);
      [|done].
    eapply Hstep; [apply list_elem_of_here | exact Hs | exact H1].
Qed.

Lemma for_each_raises {S X : Type} (Inv : S -> Prop)
    (f : S -> X -> result S) (xs : list X) (x : X) :
  (forall s y s', Inv s -> f s y = Ok s' -> Inv s') ->
  (forall s, Inv s -> raises (f s x)) ->
  x ∈ xs ->
  forall s, Inv s -> raises (for_each f xs s).
Proof.
  intros Hstep Hx Hin. induction Hin as [x xs|x y xs _ IH]; intros s Hs;
    cbn [for_each].
  - by apply raises_bind, Hx.
  - destruct (f s y) as [s1|e] eqn:Hy; [|by exists e].
    cbn [mbind result_bind]. apply (IH Hx). by eapply Hstep.
Qed.

(** What one turn of the loop does to the properties object. *)
Lemma _parse_properties_header_props props metadata key value props' metadata' :
  _parse_properties_header (props, metadata) (key, value) = Ok (props', metadata') ->
  match GET_PROPERTIES_ATTRIBUTE_MAP !! key with
  | Some (None, name, conv) =>
      exists x, convert conv value = Ok x /\ props' = setattr_top props name x
  | Some (Some sub, name, conv) =>
      exists attr x, subrecords props !! sub = Some attr /\
                     convert conv value = Ok x /\
                     props' = setattr_sub props sub attr name x
  | None => props' = props
  end.
Proof.
  unfold _parse_properties_header.
  destruct (GET_PROPERTIES_ATTRIBUTE_MAP !! key) as [[[[sub|] name] conv]|].
  - intros H. apply bind_Ok_inv in H as (attr & Hattr & H).
    apply bind_Ok_inv in H as (x & Hx & [= <- _]).
    exists attr, x. repeat split; [|done].
    unfold getattr_sub in Hattr. by destruct (subrecords props !! sub) as [a|]; simplify_eq/=.
  - intros H. apply bind_Ok_inv in H as (x & Hx & [= <- _]). eauto.
  - destruct (startswith key "x-ms-meta-"); by intros [= <- _].
Qed.

(** What one turn of the loop does to the metadata. *)
Lemma _parse_properties_header_metadata_step
    props metadata key value props' metadata' :
  _parse_properties_header (props, metadata) (key, value) = Ok (props', metadata') ->
  metadata' = if startswith key "x-ms-meta-" then <[key := value]> metadata
              else metadata.
Proof.
  destruct (startswith key "x-ms-meta-") eqn:Hp.
  - rewrite _parse_properties_header_metadata by done. by intros [= _ <-].
  - unfold _parse_properties_header. rewrite Hp.
    destruct (GET_PROPERTIES_ATTRIBUTE_MAP !! key) as [[[[sub|] name] conv]|].
    + intros H. apply bind_Ok_inv in H as (attr & _ & H).
      by apply bind_Ok_inv in H as (x & _ & [= _ <-]).
    + intros H. by apply bind_Ok_inv in H as (x & _ & [= _ <-]).
    + by intros [= _ <-].
Qed.

(** X1: a response whose headers are all outside the table and outside
    the metadata prefix gives back the properties object as constructed
    and an empty metadata mapping. *)
Theorem unrecognized_headers_set_nothing (hs : list header) b properties_class :
  Forall (fun h => (h.1 ∉ table_keys) /\ startswith h.1 "x-ms-meta-" = false) hs ->
  _parse_properties (Some (mk_response (Some hs) b)) properties_class
  = Ok (Some properties_class, Some ∅).
Proof.
  intros Hall. rewrite _parse_properties_unfold.
  assert (for_each _parse_properties_header hs (properties_class, ∅)
          = Ok (properties_class, ∅)) as ->; [|done].
  generalize (properties_class, (∅ : gmap string (option string))).
  induction Hall as [|[k v] hs [Hk Hp] _ IH]; intros st; [done|].
  cbn [for_each]. rewrite _parse_properties_header_ignored by done.
  cbn [mbind result_bind]. apply IH.
Qed.

(** X2: after a successful extraction the metadata has an entry exactly
    for the header names of the response that start with x-ms-meta-;
    table headers and other headers never become metadata. *)
Theorem metadata_keys_are_the_prefixed_header_names
    (hs : list header) b properties_class props metadata :
  _parse_properties (Some (mk_response (Some hs) b)) properties_class
  = Ok (props, Some metadata) ->
  forall k, is_Some (metadata !! k) <->
            k ∈ hs.*1 /\ startswith k "x-ms-meta-" = true.
Proof.
  rewrite _parse_properties_unfold. intros H.
  apply bind_Ok_inv in H as ([p m] & H & [= _ <-]). cbn [snd].
  assert (Hgen : forall hs (p0 : Properties) (m0 : gmap string (option string)) p m,
             for_each _parse_properties_header hs (p0, m0) = Ok (p, m) ->
             forall k, is_Some (m !! k) <->
                       is_Some (m0 !! k)
                       \/ (k ∈ hs.*1 /\ startswith k "x-ms-meta-" = true)).
  { clear. induction hs as [|[k' v'] hs IH]; intros p0 m0 p m H k;
      cbn [for_each] in H.
    - injection H as _ <-. rewrite fmap_nil. split; [by left|].
      intros [?|[Hin _]]; [done|]. by apply elem_of_nil in Hin.
    - apply bind_Ok_inv in H as ([p1 m1] & H1 & H).
      rewrite (IH _ _ _ _ H k), fmap_cons, elem_of_cons. cbn [fst].
      apply _parse_properties_header_metadata_step in H1 as ->.
      destruct (startswith k' "x-ms-meta-") eqn:Hp.
      + rewrite lookup_insert_is_Some.
        destruct (decide (k' = k)) as [->|Hne]; intuition congruence.
      + intuition congruence. }
  intros k. rewrite (Hgen _ _ _ _ _ H k), lookup_empty.
  split; [intros [[? ?]|?]; done | auto].
Qed.

(** No two header names of the table write the same field. *)
Lemma table_slots_distinct k1 k2 target name conv1 conv2 :
  GET_PROPERTIES_ATTRIBUTE_MAP !! k1 = Some (target, name, conv1) ->
  GET_PROPERTIES_ATTRIBUTE_MAP !! k2 = Some (target, name, conv2) ->
  k1 = k2.
Proof.
  intros H1 H2. apply table_lookup_in_items in H1, H2.
  assert (Hall : Forall (fun e1 : string * (option string * string * converter) =>
                   Forall (fun e2 : string * (option string * string * converter) =>
                             e1.2.1 = e2.2.1 -> e1.1 = e2.1)
                          GET_PROPERTIES_ATTRIBUTE_MAP_items)
                   GET_PROPERTIES_ATTRIBUTE_MAP_items).
  { apply (bool_decide_unpack _). vm_compute. exact I. }
  rewrite Forall_forall in Hall. specialize (Hall _ H1).
  rewrite Forall_forall in Hall. by apply (Hall _ H2).
Qed.

(** A turn of the loop for another header name leaves a table field alone. *)
Lemma _parse_properties_header_slot_other
    props metadata k v props' metadata' key target name conv :
  _parse_properties_header (props, metadata) (k, v) = Ok (props', metadata') ->
  GET_PROPERTIES_ATTRIBUTE_MAP !! key = Some (target, name, conv) ->
  k <> key ->
  slot_value props' target name = slot_value props target name.
Proof.
  intros H Hkey Hne. apply _parse_properties_header_props in H.
  destruct (GET_PROPERTIES_ATTRIBUTE_MAP !! k) as [[[[sub'|] name'] conv']|] eqn:Hk.
  - destruct H as (attr & x & Hattr & _ & ->).
    destruct target as [sub|]; [|done]. unfold slot_value, setattr_sub. cbn.
    destruct (decide (sub' = sub)) as [->|Hs].
    + rewrite lookup_insert_eq, Hattr. cbn.
      apply lookup_insert_ne. intros ->.
      exact (Hne (table_slots_distinct _ _ _ _ _ _ Hk Hkey)).
    + by rewrite lookup_insert_ne.
  - destruct H as (x & _ & ->).
    destruct target as [sub|]; [done|]. unfold slot_value, setattr_top. cbn.
    apply lookup_insert_ne. intros ->.
    exact (Hne (table_slots_distinct _ _ _ _ _ _ Hk Hkey)).
  - by subst.
Qed.

(** X3: a header named in the table writes its converted value to the
    field the table gives for it, on the properties object itself or on the
    named sub-record; the value of the last header of that name is the one
    found there after a successful extraction. *)
Theorem table_header_sets_its_field
    (hs1 : list header) key value (hs2 : list header) b properties_class
    target name conv props metadata :
  GET_PROPERTIES_ATTRIBUTE_MAP !! key = Some (target, name, conv) ->
  key ∉ hs2.*1 ->
  _parse_properties (Some (mk_response (Some (hs1 ++ (key, value) :: hs2)) b))
    properties_class = Ok (Some props, metadata) ->
  exists x, convert conv value = Ok x /\ slot_value props target name = Some x.
Proof.
  intros Hkey Hlast. rewrite _parse_properties_unfold, for_each_app.
  intros H. apply bind_Ok_inv in H as ([p2 m2] & H & [= <- _]). cbn [fst].
  apply bind_Ok_inv in H as ([p0 m0] & _ & H). cbn [for_each] in H.
  apply bind_Ok_inv in H as ([p1 m1] & H1 & H).
  assert (Hkeep : slot_value p2 target name = slot_value p1 target name).
  { clear H1. revert p1 m1 H. induction hs2 as [|[k v] hs2 IH]; intros p1 m1 H;
      cbn [for_each] in H.
    - by injection H as <- _.
    - rewrite fmap_cons in Hlast. apply not_elem_of_cons in Hlast as [Hne Hlast].
      apply bind_Ok_inv in H as ([p3 m3] & H3 & H).
      rewrite (IH Hlast _ _ H).
      eapply _parse_properties_header_slot_other; eauto. }
  rewrite Hkeep. apply _parse_properties_header_props in H1. rewrite Hkey in H1.
  destruct target as [sub|].
  - destruct H1 as (attr & x & Hattr & Hx & ->). exists x. split; [done|].
    unfold slot_value, setattr_sub. cbn. rewrite lookup_insert_eq. cbn.
    apply lookup_insert_eq.
  - destruct H1 as (x & Hx & ->). exists x. split; [done|].
    unfold slot_value, setattr_top. cbn. apply lookup_insert_eq.
Qed.

(** X4: a header that the table assigns to a nested sub-record needs that
    sub-record on the properties object: when the object as constructed
    has no such sub-record, the extraction fails. *)
Theorem header_for_missing_subrecord_fails
    (hs : list header) b properties_class key value sub name conv :
  subrecords properties_class !! sub = None ->
  (key, value) ∈ hs ->
  GET_PROPERTIES_ATTRIBUTE_MAP !! key = Some (Some sub, name, conv) ->
  raises (_parse_properties (Some (mk_response (Some hs) b)) properties_class).
Proof.
  intros Hsub Hin Hkey. rewrite _parse_properties_unfold. apply raises_bind.
  apply (for_each_raises (fun st => subrecords st.1 !! sub = None) _ _ (key, value));
    [| |done|done].
  - intros [p m] [k v] [p' m'] Hp H. cbn [fst] in *.
    apply _parse_properties_header_props in H.
    destruct (GET_PROPERTIES_ATTRIBUTE_MAP !! k) as [[[[sub'|] name'] conv']|].
    + destruct H as (attr & x & Hattr & _ & ->). unfold setattr_sub. cbn.
      rewrite lookup_insert_ne; [done|]. congruence.
    + by destruct H as (x & _ & ->).
    + by subst.
  - intros [p m] Hp. cbn [fst] in Hp. unfold _parse_properties_header.
    rewrite Hkey. unfold getattr_sub. rewrite Hp. by exists AttributeError.
Qed.

(** X5: a header named in the table whose value the table's converter
    rejects (a content-length that is no integer, a last-modified that is
    no date) makes the extraction fail; no partial result is returned. *)
Theorem rejected_header_value_fails
    (hs : list header) b properties_class key value target name conv :
  (key, value) ∈ hs ->
  GET_PROPERTIES_ATTRIBUTE_MAP !! key = Some (target, name, conv) ->
  raises (convert conv value) ->
  raises (_parse_properties (Some (mk_response (Some hs) b)) properties_class).
Proof.
  intros Hin Hkey [e He]. rewrite _parse_properties_unfold. apply raises_bind.
  apply (for_each_raises (fun _ => True) _ _ (key, value)); [done| |done|done].
  intros [p m] _. unfold _parse_properties_header. rewrite Hkey.
  destruct target as [sub|].
  - destruct (getattr_sub p sub) as [attr|e']; [|by exists e'].
    cbn [mbind result_bind]. rewrite He. by exists e.
  - rewrite He. by exists e.
Qed.

(** ** Further properties of the listing parsers *)

(** X6: a listing parser hands back a response only when that response is
    absent or has no body, and then it is the response it was given: a
    present body always ends in a parsed collection or in an error. *)
Theorem passthrough_only_without_body response r :
  _convert_xml_to_shares response = Ok (Passthrough r) \/
  _convert_xml_to_directories_and_files response = Ok (Passthrough r) \/
  _convert_xml_to_ranges response = Ok (Passthrough r) \/
  _convert_xml_to_share_stats response = Ok (Passthrough r) ->
  r = response /\
  (response = None \/ exists r0, response = Some r0 /\ body r0 = None).
Proof.
  unfold _convert_xml_to_shares, _convert_xml_to_directories_and_files,
    _convert_xml_to_ranges, _convert_xml_to_share_stats.
  rewrite <- body_of_None.
  destruct (body_of response) as [b|]; [|by intros [H|[H|[H|H]]]; injection H].
  intros [H|[H|[H|H]]]; exfalso;
    repeat (apply bind_Ok_inv in H as (? & _ & H)); discriminate.
Qed.

(** X7: a body, or an XML text, that [ETree.fromstring] rejects makes each
    of the six XML parsers fail with the parse error, whatever else the
    response carries. *)
Theorem malformed_xml_is_a_parse_error xml :
  fromstring_opt xml = None ->
  _convert_xml_to_signed_identifiers xml = Raise ParseError /\
  _convert_xml_to_service_properties xml = Raise ParseError /\
  forall response,
    body_of response = Some xml ->
    _convert_xml_to_shares response = Raise ParseError /\
    _convert_xml_to_directories_and_files response = Raise ParseError /\
    _convert_xml_to_ranges response = Raise ParseError /\
    _convert_xml_to_share_stats response = Raise ParseError.
Proof.
  intros Hx.
  unfold _convert_xml_to_signed_identifiers, _convert_xml_to_service_properties,
    _convert_xml_to_shares, _convert_xml_to_directories_and_files,
    _convert_xml_to_ranges, _convert_xml_to_share_stats, fromstring.
  rewrite Hx. repeat split; try done; by rewrite H, Hx.
Qed.

(** X8: the Shares and Entries containers are required even for an empty
    page: without the container the parse fails with an attribute error;
    with a container that has no Share (no File and no Directory) child
    the result is an empty collection carrying the continuation marker. *)
Theorem listing_container_required response b root :
  body_of response = Some b ->
  fromstring_opt b = Some root ->
  (find root "Shares" = None ->
   _convert_xml_to_shares response = Raise AttributeError) /\
  (find root "Entries" = None ->
   _convert_xml_to_directories_and_files response = Raise AttributeError) /\
  (forall c, find root "Shares" = Some c -> findall c "Share" = [] ->
     _convert_xml_to_shares response
     = Ok (Parsed (mk_list [] (or_None (findtext root "NextMarker"))))) /\
  (forall c, find root "Entries" = Some c ->
     findall c "File" = [] -> findall c "Directory" = [] ->
     _convert_xml_to_directories_and_files response
     = Ok (Parsed (mk_entries [] [] (or_None (findtext root "NextMarker"))))).
Proof.
  intros Hb Hroot.
  unfold _convert_xml_to_shares, _convert_xml_to_directories_and_files, fromstring.
  rewrite Hb, Hroot. cbn [from_option mbind result_bind].
  repeat split.
  - by intros ->.
  - by intros ->.
  - intros c -> Hc. cbn [deref fmap result_fmap mbind result_bind flip].
    by rewrite Hc.
  - intros c -> Hf Hd. cbn [deref fmap result_fmap mbind result_bind flip].
    by rewrite Hf, Hd.
Qed.

Lemma _convert_xml_to_range_Ok e r :
  _convert_xml_to_range e = Ok r <->
  int (findtext e "Start") = Ok (range_start r) /\
  int (findtext e "End") = Ok (range_end r).
Proof.
  unfold _convert_xml_to_range. split.
  - intros H. apply bind_Ok_inv in H as (s & Hs & H).
    apply bind_Ok_inv in H as (n & Hn & [= <-]). done.
  - destruct r as [s n]. cbn [range_start range_end]. by intros [-> ->].
Qed.

(** X9: the range listing parses exactly when every Range child has an
    integer Start and an integer End; the result then lists one range per
    Range child, in document order, with those two integers. *)
Theorem ranges_parse_iff response ranges :
  _convert_xml_to_ranges response = Ok (Parsed ranges) <->
  exists b root,
    body_of response = Some b /\ fromstring_opt b = Some root /\
    Forall2 (fun e r => int (findtext e "Start") = Ok (range_start r) /\
                        int (findtext e "End") = Ok (range_end r))
            (findall root "Range") ranges.
Proof.
  unfold _convert_xml_to_ranges. split.
  - destruct (body_of response) as [b|]; [|done]. intros H.
    apply bind_Ok_inv in H as (root & Hroot & H).
    apply bind_Ok_inv in H as (l & Hl & [= <-]).
    exists b, root. split; [done|]. split; [by apply fromstring_Ok_inv|].
    apply mapM_Ok_Forall2 in Hl. eapply Forall2_impl; [exact Hl|].
    intros e r. apply _convert_xml_to_range_Ok.
  - intros (b & root & -> & Hroot & Hall). unfold fromstring. rewrite Hroot.
    cbn [from_option mbind result_bind].
    assert (mapM _convert_xml_to_range (findall root "Range") = Ok ranges) as ->;
      [|done].
    apply mapM_Ok_Forall2. eapply Forall2_impl; [exact Hall|].
    intros e r. apply _convert_xml_to_range_Ok.
Qed.

(** X10: the share statistics need a ShareUsage element: without it the
    parse fails with a type error (int of None); with it the usage is the
    integer read from the element's text, an element without text being
    read as the empty string. *)
Theorem share_usage_required response b root :
  body_of response = Some b ->
  fromstring_opt b = Some root ->
  (find root "ShareUsage" = None ->
   _convert_xml_to_share_stats response = Raise TypeError) /\
  (forall e, find root "ShareUsage" = Some e ->
     _convert_xml_to_share_stats response
     = (fun n => Parsed (mk_share_stats n)) <$> int (Some (default "" (text e)))).
Proof.
  intros Hb Hroot. unfold _convert_xml_to_share_stats, fromstring, findtext.
  rewrite Hb, Hroot. cbn [from_option mbind result_bind]. split.
  - by intros ->.
  - intros e ->. by destruct (int _).
Qed.

Lemma _convert_xml_to_file_raises fe :
  find fe "Properties" = None \/
  (exists pe, find fe "Properties" = Some pe /\ find pe "Content-Length" = None) ->
  raises (_convert_xml_to_file fe).
Proof.
  unfold _convert_xml_to_file. intros [->|(pe & -> & H)].
  - by exists AttributeError.
  - cbn [deref fmap result_fmap mbind result_bind flip].
    rewrite (findtext_None _ _ H). by exists TypeError.
Qed.

(** X11: in a directories-and-files listing a File element without its
    Properties block, or without Content-Length inside it, makes the parse
    fail.  Name is not required: a File or a Directory without Name is
    listed with a null name. *)
Theorem file_children_required_and_tolerated response b root entries_element :
  body_of response = Some b ->
  fromstring_opt b = Some root ->
  find root "Entries" = Some entries_element ->
  (forall fe,
      fe ∈ findall entries_element "File" ->
      find fe "Properties" = None \/
      (exists pe, find fe "Properties" = Some pe /\
                  find pe "Content-Length" = None) ->
      raises (_convert_xml_to_directories_and_files response)) /\
  (forall entries,
      _convert_xml_to_directories_and_files response = Ok (Parsed entries) ->
      Forall2 (fun fe f => find fe "Name" = None -> file_name f = None)
              (findall entries_element "File") (files entries) /\
      Forall2 (fun de d => find de "Name" = None -> directory_name d = None)
              (findall entries_element "Directory") (directories entries)).
Proof.
  intros Hb Hroot Hee. split.
  - intros fe Hin Hlack.
    unfold _convert_xml_to_directories_and_files, fromstring.
    rewrite Hb, Hroot. cbn [from_option mbind result_bind]. rewrite Hee.
    cbn [deref fmap result_fmap mbind result_bind flip].
    apply raises_bind, (mapM_raises _ _ fe); [done|].
    by apply _convert_xml_to_file_raises.
  - intros entries H.
    apply _convert_xml_to_directories_and_files_Parsed in H
      as (b' & root' & ee' & Hb' & Hroot' & Hee' & Hfiles & Hdirs & _).
    assert (b' = b) as -> by congruence.
    assert (root' = root) as -> by congruence.
    assert (ee' = entries_element) as -> by congruence.
    split.
    + apply mapM_Ok_Forall2 in Hfiles. eapply Forall2_impl; [exact Hfiles|].
      intros fe f Hf Hn. cbn beta in Hf.
      by rewrite (_convert_xml_to_file_name _ _ Hf), findtext_None.
    + rewrite Hdirs. apply Forall2_fmap_r, Forall_Forall2_diag, Forall_forall.
      intros de _ Hn. unfold _convert_xml_to_directory. cbn.
      by apply findtext_None.
Qed.

Lemma foldl_metadata_lookup (cs : list Element) :
  forall (acc : gmap string (option string)) k,
    foldl (fun (m : gmap string (option string)) metadata_element =>
             <[tag metadata_element := text metadata_element]> m) acc cs !! k
    = match last (filter (fun c => tag c = k) cs) with
      | Some c => Some (text c)
      | None => acc !! k
      end.
Proof.
  induction cs as [|c cs IH]; intros acc k; [done|].
  cbn [foldl]. rewrite IH, filter_cons.
  destruct (decide (tag c = k)) as [<-|Hne].
  - destruct (filter _ cs) as [|c' l] eqn:Hf.
    + cbn [last]. apply lookup_insert_eq.
    + rewrite last_cons_cons. destruct (last (c' :: l)) eqn:Hl; [done|].
      by apply last_None in Hl.
  - by rewrite lookup_insert_ne.
Qed.

(** X12: the metadata of a parsed share is null when the Share has no
    Metadata element and a mapping when it has one, empty for an empty
    element; the mapping has an entry for each child's tag, holding the
    text of the last child with that tag, and no other entry. *)
Theorem share_metadata_from_children se s :
  _convert_xml_to_share se = Ok s ->
  (find se "Metadata" = None -> share_metadata s = None) /\
  (forall metadata_root,
      find se "Metadata" = Some metadata_root ->
      exists m,
        share_metadata s = Some m /\
        forall k,
          m !! k = text <$> last (filter (fun c => tag c = k)
                                         (children metadata_root))).
Proof.
  unfold _convert_xml_to_share. intros H.
  apply bind_Ok_inv in H as (d & _ & H).
  apply bind_Ok_inv in H as (etag & _ & H).
  apply bind_Ok_inv in H as (q & _ & [= <-]). cbn [share_metadata]. split.
  - by intros ->.
  - intros mr ->. eexists. split; [done|]. intros k.
    rewrite foldl_metadata_lookup, lookup_empty.
    by destruct (last _).
Qed.

(** ** Further properties of the access-policy parser *)

Lemma _convert_xml_to_signed_identifier_inv se id policy :
  _convert_xml_to_signed_identifier se = Ok (id, policy) ->
  exists ide ape,
    find se "Id" = Some ide /\ id = text ide /\
    find se "AccessPolicy" = Some ape /\
    ap_permission policy = findtext ape "Permission" /\
    optional_timestamp ape "Start" = Ok (ap_start policy) /\
    optional_timestamp ape "Expiry" = Ok (ap_expiry policy).
Proof.
  unfold _convert_xml_to_signed_identifier, find_text, optional_timestamp.
  intros H. apply bind_Ok_inv in H as (id' & Hid & H).
  apply fmap_Ok_inv in Hid as (ide & Hide & ->).
  apply bind_Ok_inv in H as (ape & Hape & H).
  destruct (find se "Id") as [ide'|]; [|done]. injection Hide as ->.
  destruct (find se "AccessPolicy") as [ape'|]; [|done]. injection Hape as ->.
  apply bind_Ok_inv in H as (p1 & H1 & H).
  apply bind_Ok_inv in H as (p2 & H2 & [= <- <-]).
  exists ide, ape. repeat (split; [done|]). cbn.
  destruct (find ape "Start") as [s|], (find ape "Expiry") as [x|].
  - apply bind_Ok_inv in H1 as (ds & -> & [= <-]).
    apply bind_Ok_inv in H2 as (dx & -> & [= <-]). done.
  - apply bind_Ok_inv in H1 as (ds & -> & [= <-]). by injection H2 as <-.
  - injection H1 as <-. apply bind_Ok_inv in H2 as (dx & -> & [= <-]). done.
  - injection H1 as <-. by injection H2 as <-.
Qed.

Lemma signed_identifiers_loop_inv ses :
  forall (acc d : gmap (option string) AccessPolicy),
    for_each
      (fun signed_identifiers signed_identifier_element =>
         '(id, access_policy) ←
           _convert_xml_to_signed_identifier signed_identifier_element;
         Ok (<[id := access_policy]> signed_identifiers))
      ses acc = Ok d ->
    exists kvs,
      Forall2 (fun se kv => _convert_xml_to_signed_identifier se = Ok kv) ses kvs /\
      d = foldl (fun m kv => <[kv.1 := kv.2]> m) acc kvs.
Proof.
  induction ses as [|se ses IH]; intros acc d H; cbn [for_each] in H.
  - injection H as <-. exists []. split; [constructor|done].
  - apply bind_Ok_inv in H as (acc' & H1 & H).
    apply bind_Ok_inv in H1 as ([id p] & Hse & [= <-]).
    apply IH in H as (kvs & Hall & ->).
    exists ((id, p) :: kvs). split; [by constructor|done].
Qed.

Lemma foldl_insert_is_Some (kvs : list (option string * AccessPolicy)) :
  forall (acc : gmap (option string) AccessPolicy) k,
    is_Some (foldl (fun m kv => <[kv.1 := kv.2]> m) acc kvs !! k)
    <-> is_Some (acc !! k) \/ k ∈ kvs.*1.
Proof.
  induction kvs as [|[k' p] kvs IH]; intros acc k; cbn [foldl].
  - rewrite fmap_nil, elem_of_nil. split; [by left | by intros [?|?]].
  - rewrite IH, fmap_cons, elem_of_cons, lookup_insert_is_Some. cbn [fst].
    destruct (decide (k' = k)) as [->|Hne].
    + split; [intros _; right; by left | intros _; left; by left].
    + split.
      * intros [[?|[_ ?]]|?]; [done | by left | right; by right].
      * intros [?|[?|?]]; [left; by right | by subst | by right].
Qed.

(** X13: the mapping returned for a stored-access-policy document has an
    entry exactly for the Id texts of its SignedIdentifier elements (an Id
    element without text giving the null key); identifiers that repeat an
    Id share one entry. *)
Theorem signed_identifier_keys xml d :
  _convert_xml_to_signed_identifiers xml = Ok d ->
  exists root,
    fromstring_opt xml = Some root /\
    forall k, is_Some (d !! k) <->
              exists se ide, se ∈ findall root "SignedIdentifier" /\
                             find se "Id" = Some ide /\ text ide = k.
Proof.
  unfold _convert_xml_to_signed_identifiers. intros H.
  apply bind_Ok_inv in H as (root & Hroot & H).
  exists root. split; [by apply fromstring_Ok_inv|].
  apply signed_identifiers_loop_inv in H as (kvs & Hall & ->).
  intros k. rewrite foldl_insert_is_Some, lookup_empty. split.
  - intros [[? ?]|Hin]; [done|].
    apply list_elem_of_fmap in Hin as ([id p] & -> & Hin).
    apply list_elem_of_lookup in Hin as [i Hi].
    destruct (Forall2_lookup_r _ _ _ _ _ Hall Hi) as (se & Hse & Hconv).
    apply _convert_xml_to_signed_identifier_inv in Hconv
      as (ide & ape & Hide & -> & _).
    exists se, ide. split; [|done]. by eapply list_elem_of_lookup_2.
  - intros (se & ide & Hin & Hide & <-). right.
    apply list_elem_of_lookup in Hin as [i Hi].
    destruct (Forall2_lookup_l _ _ _ _ _ Hall Hi) as ([id p] & Hkv & Hconv).
    apply _convert_xml_to_signed_identifier_inv in Hconv
      as (ide' & ape & Hide' & -> & _).
    assert (ide' = ide) as -> by congruence.
    apply list_elem_of_fmap. exists (text ide, p). split; [done|].
    by eapply list_elem_of_lookup_2.
Qed.

(** X14: a SignedIdentifier without an Id element or without an
    AccessPolicy element makes the whole document fail to parse; no
    mapping of the remaining identifiers is returned. *)
Theorem signed_identifier_children_required xml root se :
  fromstring_opt xml = Some root ->
  se ∈ findall root "SignedIdentifier" ->
  find se "Id" = None \/ find se "AccessPolicy" = None ->
  raises (_convert_xml_to_signed_identifiers xml).
Proof.
  intros Hroot Hin Hlack. unfold _convert_xml_to_signed_identifiers, fromstring.
  rewrite Hroot. cbn [from_option mbind result_bind].
  apply (for_each_raises (fun _ => True) _ _ se); [done| |done|done].
  intros acc _. apply raises_bind.
  unfold _convert_xml_to_signed_identifier, find_text.
  destruct (find se "Id") as [ide|]; [|by exists AttributeError].
  destruct Hlack as [?| ->]; [done|]. by exists AttributeError.
Qed.

(** ** Further properties of the service-properties parser *)

Lemma optional_part_None {A B : Type} (o : option A) (f : A -> result B)
    (r : option B) :
  match o with
  | Some a => Some <$> f a
  | None => Ok None
  end = Ok r ->
  (r = None <-> o = None).
Proof.
  destruct o as [a|].
  - intros H. apply fmap_Ok_inv in H as (b & _ & ->). done.
  - by intros [= <-].
Qed.

(** X15: in a parsed ServiceProperties the logging, the hour metrics, the
    minute metrics and the CORS rules are null exactly when the document
    has no Logging, HourMetrics, MinuteMetrics or Cors element (a Cors
    element without rules gives an empty list, not null); the target
    version is the text of DefaultServiceVersion, null without it. *)
Theorem optional_parts_follow_the_elements xml service_properties :
  _convert_xml_to_service_properties xml = Ok service_properties ->
  exists root,
    fromstring_opt xml = Some root /\
    (sp_logging service_properties = None <-> find root "Logging" = None) /\
    (sp_hour_metrics service_properties = None <-> find root "HourMetrics" = None) /\
    (sp_minute_metrics service_properties = None
     <-> find root "MinuteMetrics" = None) /\
    (sp_cors service_properties = None <-> find root "Cors" = None) /\
    (forall cors, find root "Cors" = Some cors ->
       exists rules, sp_cors service_properties = Some rules /\
                     length rules = length (findall cors "CorsRule")) /\
    sp_target_version service_properties
    = find root "DefaultServiceVersion" ≫= text.
Proof.
  unfold _convert_xml_to_service_properties. intros H.
  apply bind_Ok_inv in H as (root & Hroot & H).
  apply bind_Ok_inv in H as (l & Hl & H).
  apply bind_Ok_inv in H as (h & Hh & H).
  apply bind_Ok_inv in H as (m & Hm & H).
  apply bind_Ok_inv in H as (c & Hc & [= <-]).
  exists root. split; [by apply fromstring_Ok_inv|]. cbn.
  split; [by apply optional_part_None in Hl|].
  split; [by apply optional_part_None in Hh|].
  split; [by apply optional_part_None in Hm|].
  split; [by apply optional_part_None in Hc|].
  split; [|by destruct (find root "DefaultServiceVersion")].
  intros cors Hcors. rewrite Hcors in Hc.
  apply fmap_Ok_inv in Hc as (rules & Hrules & ->).
  exists rules. split; [done|].
  apply mapM_Ok_Forall2 in Hrules. symmetry. by eapply Forall2_length.
Qed.

(** [e.find(t).text] followed by [_bool] fails when the element is absent
    and when it has no text. *)
Lemma _bool_of_child_raises e t :
  find e t ≫= text = None -> raises (find_text e t ≫= _bool).
Proof.
  unfold find_text, _bool. destruct (find e t) as [c|]; cbn.
  - intros ->. by exists AttributeError.
  - intros _. by exists AttributeError.
Qed.

Lemma _convert_xml_to_retention_policy_raises xml retention_policy :
  xml = None \/ (exists rp, xml = Some rp /\ find rp "Enabled" ≫= text = None) ->
  raises (_convert_xml_to_retention_policy xml retention_policy).
Proof.
  unfold _convert_xml_to_retention_policy. intros [->|(rp & -> & H)].
  - by exists AttributeError.
  - cbn [deref mbind result_bind]. by apply raises_bind, _bool_of_child_raises.
Qed.

Lemma _convert_xml_to_logging_raises l :
  find l "Version" = None \/
  (exists t, t ∈ ["Delete"; "Read"; "Write"] /\ find l t ≫= text = None) \/
  find l "RetentionPolicy" = None \/
  (exists rp, find l "RetentionPolicy" = Some rp /\
              find rp "Enabled" ≫= text = None) ->
  raises (_convert_xml_to_logging l).
Proof.
  intros H. unfold _convert_xml_to_logging.
  destruct (find_text l "Version") as [v|e] eqn:Hv; [|by exists e].
  cbn [mbind result_bind].
  destruct (find_text l "Delete" ≫= _bool) as [d|e] eqn:Hd; [|by exists e].
  cbn [mbind result_bind].
  destruct (find_text l "Read" ≫= _bool) as [r|e] eqn:Hr; [|by exists e].
  cbn [mbind result_bind].
  destruct (find_text l "Write" ≫= _bool) as [w|e] eqn:Hw; [|by exists e].
  cbn [mbind result_bind].
  destruct H as [H|[(t & Ht & H)|H]].
  - by rewrite (find_text_absent _ _ H) in Hv.
  - apply _bool_of_child_raises in H as [e He].
    repeat (apply elem_of_cons in Ht as [->|Ht]); [congruence..|].
    by apply elem_of_nil in Ht.
  - apply raises_bind, _convert_xml_to_retention_policy_raises.
    destruct H as [->|(rp & -> & H)]; eauto.
Qed.

Lemma _convert_xml_to_metrics_raises x metrics :
  find x "Version" = None \/
  find x "Enabled" ≫= text = None \/
  find x "RetentionPolicy" = None \/
  (exists rp, find x "RetentionPolicy" = Some rp /\
              find rp "Enabled" ≫= text = None) ->
  raises (_convert_xml_to_metrics x metrics).
Proof.
  intros H. unfold _convert_xml_to_metrics.
  destruct (find_text x "Version") as [v|e] eqn:Hv; [|by exists e].
  cbn [mbind result_bind].
  destruct (find_text x "Enabled" ≫= _bool) as [d|e] eqn:Hd; [|by exists e].
  cbn [mbind result_bind].
  destruct (match find x "IncludeAPIs" with Some _ => _ | None => _ end)
    as [i|e]; [|by exists e].
  cbn [mbind result_bind].
  destruct H as [H|[H|H]].
  - by rewrite (find_text_absent _ _ H) in Hv.
  - apply _bool_of_child_raises in H as [e He]. congruence.
  - apply raises_bind, _convert_xml_to_retention_policy_raises.
    destruct H as [->|(rp & -> & H)]; eauto.
Qed.

(** X16: inside Logging the children Version, Delete, Read, Write and
    RetentionPolicy (with its Enabled) are required, and so are Version,
    Enabled and RetentionPolicy inside HourMetrics and MinuteMetrics; a
    boolean child that is present but has no text counts as missing.  A
    document that lacks one of them fails to parse. *)
Theorem logging_and_metrics_children_required xml root :
  fromstring_opt xml = Some root ->
  (forall l, find root "Logging" = Some l ->
     find l "Version" = None \/
     (exists t, t ∈ ["Delete"; "Read"; "Write"] /\ find l t ≫= text = None) \/
     find l "RetentionPolicy" = None \/
     (exists rp, find l "RetentionPolicy" = Some rp /\
                 find rp "Enabled" ≫= text = None) ->
     raises (_convert_xml_to_service_properties xml)) /\
  (forall t x, t = "HourMetrics" \/ t = "MinuteMetrics" ->
     find root t = Some x ->
     find x "Version" = None \/
     find x "Enabled" ≫= text = None \/
     find x "RetentionPolicy" = None \/
     (exists rp, find x "RetentionPolicy" = Some rp /\
                 find rp "Enabled" ≫= text = None) ->
     raises (_convert_xml_to_service_properties xml)).
Proof.
  intros Hroot. unfold _convert_xml_to_service_properties, fromstring.
  rewrite Hroot. cbn [from_option mbind result_bind]. split.
  - intros l -> H. apply raises_bind.
    destruct (_convert_xml_to_logging_raises l H) as [e ->]. by exists e.
  - intros t x Ht Hx H.
    destruct (match find root "Logging" with Some _ => _ | None => _ end)
      as [l|e]; [|by exists e].
    cbn [mbind result_bind].
    destruct Ht as [-> | ->].
    + rewrite Hx.
      destruct (_convert_xml_to_metrics_raises x Metrics_new H) as [e ->].
      by exists e.
    + destruct (match find root "HourMetrics" with Some _ => _ | None => _ end)
        as [h|e]; [|by exists e].
      cbn [mbind result_bind]. rewrite Hx.
      destruct (_convert_xml_to_metrics_raises x Metrics_new H) as [e ->].
      by exists e.
Qed.

Lemma split_without_separator (sep : ascii) (s : string) :
  sep ∉ list_ascii_of_string s -> split sep s = [s].
Proof.
  induction s as [|c s IH]; [done|]. cbn [list_ascii_of_string split].
  intros Hc. apply not_elem_of_cons in Hc as [Hne Hc].
  destruct (Ascii.eqb_spec c sep) as [->|_]; [done|]. by rewrite IH.
Qed.

Lemma split_append (sep : ascii) (s t : string) :
  sep ∉ list_ascii_of_string s ->
  split sep (String.append s (String sep t)) = s :: split sep t.
Proof.
  induction s as [|c s IH]; simpl.
  - intros _. by rewrite Ascii.eqb_refl.
  - intros Hc. apply not_elem_of_cons in Hc as [Hne Hc].
    destruct (Ascii.eqb_spec c sep) as [->|_]; [done|]. by rewrite IH.
Qed.

(** Splitting a joined list gives the list back. *)
Lemma split_concat (sep : ascii) (l : list string) :
  l <> [] ->
  Forall (fun s => sep ∉ list_ascii_of_string s) l ->
  split sep (String.concat (String sep "") l) = l.
Proof.
  intros Hne Hall. induction Hall as [|s l Hs Hall IH]; [done|].
  destruct l as [|s' l].
  - by apply split_without_separator.
  - change (String.concat (String sep "") (s :: s' :: l))
      with (String.append s (String sep (String.concat (String sep "") (s' :: l)))).
    rewrite split_append by done. by rewrite IH.
Qed.

Lemma _convert_xml_to_cors_rule_inv rule r :
  _convert_xml_to_cors_rule rule = Ok r ->
  exists o m e a,
    find rule "AllowedOrigins" ≫= text = Some o /\
    find rule "AllowedMethods" ≫= text = Some m /\
    find rule "ExposedHeaders" = Some e /\
    find rule "AllowedHeaders" = Some a /\
    find_text rule "MaxAgeInSeconds" ≫= int = Ok (cors_max_age_in_seconds r) /\
    cors_allowed_origins r = split "," o /\
    cors_allowed_methods r = split "," m /\
    cors_exposed_headers r = split "," <$> text e /\
    cors_allowed_headers r = split "," <$> text a.
Proof.
  unfold _convert_xml_to_cors_rule, find_text_split, find_text. intros H.
  apply bind_Ok_inv in H as (os & Ho & H).
  apply bind_Ok_inv in H as (ms & Hm & H).
  apply bind_Ok_inv in H as (age & Hage & H).
  apply bind_Ok_inv in H as (eh & He & H).
  apply bind_Ok_inv in H as (ah & Ha & [= <-]).
  apply fmap_Ok_inv in Ho as (o & Ho & ->).
  apply fmap_Ok_inv in Hm as (m & Hm & ->).
  apply fmap_Ok_inv in He as (e & He & ->).
  apply fmap_Ok_inv in Ha as (a & Ha & ->).
  destruct (find rule "AllowedOrigins") as [eo|]; [|done].
  destruct (find rule "AllowedMethods") as [em|]; [|done].
  destruct (find rule "ExposedHeaders") as [e'|]; [|done].
  destruct (find rule "AllowedHeaders") as [a'|]; [|done].
  cbn in Ho, Hm, He, Ha. injection He as ->. injection Ha as ->.
  destruct (text eo) as [o'|] eqn:Heo; [|done].
  destruct (text em) as [m'|] eqn:Hem; [|done].
  injection Ho as ->. injection Hm as ->.
  exists o, m, e, a. cbn [mbind option_bind].
  destruct (text e), (text a); cbn; repeat split; done.
Qed.

(** X17: the comma-separated lists of a CorsRule parse back to the lists
    they were joined from: when the text of AllowedOrigins, AllowedMethods,
    ExposedHeaders or AllowedHeaders is the comma-join of a non-empty list
    of comma-free strings, the parsed field is that list. *)
Theorem cors_lists_round_trip rule r (l : list string) :
  _convert_xml_to_cors_rule rule = Ok r ->
  l <> [] ->
  Forall (fun s => ","%char ∉ list_ascii_of_string s) l ->
  (find rule "AllowedOrigins" ≫= text = Some (String.concat "," l) ->
   cors_allowed_origins r = l) /\
  (find rule "AllowedMethods" ≫= text = Some (String.concat "," l) ->
   cors_allowed_methods r = l) /\
  (find rule "ExposedHeaders" ≫= text = Some (String.concat "," l) ->
   cors_exposed_headers r = Some l) /\
  (find rule "AllowedHeaders" ≫= text = Some (String.concat "," l) ->
   cors_allowed_headers r = Some l).
Proof.
  intros H Hne Hall.
  apply _convert_xml_to_cors_rule_inv in H
    as (o & m & e & a & Ho & Hm & He & Ha & _ & -> & -> & -> & ->).
  pose proof (split_concat "," l Hne Hall) as Hsplit.
  rewrite Ho, Hm, He, Ha. cbn [mbind option_bind].
  repeat split.
  - by intros [= ->].
  - by intros [= ->].
  - intros ->. cbn. by rewrite Hsplit.
  - intros ->. cbn. by rewrite Hsplit.
Qed.

(** X18: AllowedOrigins, AllowedMethods and MaxAgeInSeconds are required
    in a CorsRule, the first two with a text: a rule where one of them is
    missing, or where AllowedOrigins or AllowedMethods is empty, makes the
    document fail to parse. *)
Theorem cors_rule_children_required xml root cors rule :
  fromstring_opt xml = Some root ->
  find root "Cors" = Some cors ->
  rule ∈ findall cors "CorsRule" ->
  find rule "AllowedOrigins" ≫= text = None \/
  find rule "AllowedMethods" ≫= text = None \/
  find rule "MaxAgeInSeconds" = None ->
  raises (_convert_xml_to_service_properties xml).
Proof.
  intros Hroot Hcors Hin H.
  eapply _convert_xml_to_service_properties_cors_raises; [done..|].
  unfold _convert_xml_to_cors_rule.
  assert (Hsplit : forall t, find rule t ≫= text = None ->
             raises (find_text_split rule t)).
  { intros t Ht. unfold find_text_split, find_text.
    destruct (find rule t) as [c|]; cbn in *.
    - rewrite Ht. by exists AttributeError.
    - by exists AttributeError. }
  destruct H as [H|[H|H]].
  - by apply raises_bind, Hsplit.
  - destruct (find_text_split rule "AllowedOrigins") as [os|e]; [|by exists e].
    cbn [mbind result_bind]. by apply raises_bind, Hsplit.
  - destruct (find_text_split rule "AllowedOrigins") as [os|e]; [|by exists e].
    cbn [mbind result_bind].
    destruct (find_text_split rule "AllowedMethods") as [ms|e]; [|by exists e].
    cbn [mbind result_bind]. rewrite (find_text_absent _ _ H).
    by exists AttributeError.
Qed.

Lemma lower_ascii_inv (c d : ascii) :
  (97 <= nat_of_ascii d <= 122)%nat ->
  lower_ascii c = d <-> c = d \/ c = ascii_of_nat (nat_of_ascii d - 32).
Proof.
  intros Hd. unfold lower_ascii.
  destruct ((65 <=? nat_of_ascii c)%nat && (nat_of_ascii c <=? 90)%nat) eqn:Hc.
  - apply andb_prop in Hc as [H1 H2].
    apply Nat.leb_le in H1. apply Nat.leb_le in H2. split.
    + intros <-. right. rewrite nat_ascii_embedding by lia.
      replace (nat_of_ascii c + 32 - 32)%nat with (nat_of_ascii c) by lia.
      by rewrite ascii_nat_embedding.
    + intros [-> | ->]; [lia|].
      rewrite nat_ascii_embedding by lia.
      replace (nat_of_ascii d - 32 + 32)%nat with (nat_of_ascii d) by lia.
      apply ascii_nat_embedding.
  - split; [by left|]. intros [?| ->]; [done|]. exfalso.
    rewrite nat_ascii_embedding in Hc by lia.
    apply andb_false_iff in Hc as [Hc|Hc]; apply Nat.leb_gt in Hc; lia.
Qed.

(** X19: the boolean texts of a service-properties document are read
    without regard to letter case: exactly the sixteen spellings of "true"
    (true, True, TRUE, tRuE, ...) are true, every other text is false, and
    only a missing text is an error. *)
Theorem _bool_true_spellings (value : option string) :
  (_bool value = Ok true <->
   exists c1 c2 c3 c4 : ascii,
     value = Some (String c1 (String c2 (String c3 (String c4 "")))) /\
     (c1 = "t" \/ c1 = "T")%char /\ (c2 = "r" \/ c2 = "R")%char /\
     (c3 = "u" \/ c3 = "U")%char /\ (c4 = "e" \/ c4 = "E")%char) /\
  (raises (_bool value) <-> value = None).
Proof.
  assert (Ht : forall c d : ascii,
             (d = "t" \/ d = "r" \/ d = "u" \/ d = "e")%char ->
             lower_ascii c = d <-> c = d \/ c = ascii_of_nat (nat_of_ascii d - 32)).
  { intros c d Hd. apply lower_ascii_inv.
    destruct Hd as [-> | [-> | [-> | ->]]]; vm_compute; lia. }
  split.
  - destruct value as [s|]; cbn; [|split; [done|by intros (?&?&?&?&?&?)]]. split.
    + intros [= H]. apply String.eqb_eq in H.
      destruct s as [|c1 [|c2 [|c3 [|c4 [|c5 s]]]]]; try discriminate.
      cbn in H. injection H as H1 H2 H3 H4.
      exists c1, c2, c3, c4. split; [done|].
      apply Ht in H1; [|tauto]. apply Ht in H2; [|tauto].
      apply Ht in H3; [|tauto]. apply Ht in H4; [|tauto].
      exact (conj H1 (conj H2 (conj H3 H4))).
    + intros (c1 & c2 & c3 & c4 & [= ->] & H1 & H2 & H3 & H4). cbn.
      apply (Ht c1 "t"%char) in H1; [|tauto].
      apply (Ht c2 "r"%char) in H2; [|tauto].
      apply (Ht c3 "u"%char) in H3; [|tauto].
      apply (Ht c4 "e"%char) in H4; [|tauto].
      by rewrite H1, H2, H3, H4.
  - destruct value as [s|]; cbn.
    + split; [intros [e He]; discriminate | done].
    + split; [done|]. intros _. by exists AttributeError.
Qed.

(** X20: [_parse_file] never builds a File from missing parts: on an
    absent response it fails with an attribute error, on a response
    without a header collection with a type error, and the File it returns
    holds the response body with the properties and metadata that the
    header extractor returned for that response. *)
Theorem _parse_file_spec FileProperties_class :
  _parse_file None FileProperties_class = Raise AttributeError /\
  (forall b, _parse_file (Some (mk_response None b)) FileProperties_class
             = Raise TypeError) /\
  (forall response f,
      _parse_file response FileProperties_class = Ok f ->
      exists r props metadata,
        response = Some r /\
        _parse_properties response FileProperties_class
        = Ok (Some props, Some metadata) /\
        f = File_init (body r) (Some props) (Some metadata)).
Proof.
  split; [done|]. split; [done|].
  intros response f H. unfold _parse_file in H.
  apply bind_Ok_inv in H as ([p m] & Hp & H).
  apply bind_Ok_inv in H as (b & Hb & [= <-]).
  destruct response as [[hs b']|]; [|done]. injection Hb as <-.
  destruct hs as [hs|]; [|done].
  rewrite _parse_properties_unfold in Hp.
  apply bind_Ok_inv in Hp as (st & Hst & [= <- <-]).
  exists (mk_response (Some hs) b'), st.1, st.2. split; [done|].
  split; [|done]. rewrite _parse_properties_unfold, Hst. done.
Qed.

#[local] Transparent GET_PROPERTIES_ATTRIBUTE_MAP.

End Storage.

(** ** Worked examples *)

Import Samples.

(** x-ms-meta-foo: bar is stored under "x-ms-meta-foo"; no entry "foo". *)
Lemma metadata_prefix_not_stripped :
  _parse_properties decimal_int parse_known_date
    (response_with_headers [("x-ms-meta-foo", Some "bar")]) file_properties_object
  = Ok (Some file_properties_object, Some {["x-ms-meta-foo" := Some "bar"]})
  /\ ({["x-ms-meta-foo" := Some "bar"]} : gmap string (option string)) !! "foo" = None
  /\ ({["x-ms-meta-foo" := Some "bar"]} : gmap string (option string))
     <> {["foo" := Some "bar"]}.
Proof.
  split; [|split].
  - vm_compute. reflexivity.
  - vm_compute. reflexivity.
  - intros H. apply (f_equal (fun m => m !! "foo")) in H. vm_compute in H.
    discriminate.
Qed.

Lemma metadata_entry_keeps_header_name_witness :
  exists m : gmap string (option string),
    Some {["x-ms-meta-foo" := Some "bar"]} = Some m
    /\ m !! "x-ms-meta-foo" = Some (Some "bar").
Proof.
  apply (metadata_entry_keeps_header_name decimal_int parse_known_date
           [("etag", Some "0x1")] "x-ms-meta-foo" (Some "bar")
           [("content-length", Some "12")] None file_properties_object
           (Some (mk_properties
                    (<["content_length" := PyInt 12]> (<["etag" := PyStr "0x1"]> ∅))
                    (subrecords file_properties_object)))).
  - reflexivity.
  - vm_compute. intros H. inversion H as [|? ? ? H']; subst; inversion H'.
  - vm_compute. reflexivity.
Defined.

Lemma unmatched_header_is_ignored_witness :
  (forall st, _parse_properties_header decimal_int parse_known_date st
                ("Last-Modified", Some "Fri, 01 Jan 2016 00:00:00 GMT") = Ok st) /\
  _parse_properties decimal_int parse_known_date
    (response_with_headers
       ([("etag", Some "0x1")]
          ++ ("Last-Modified", Some "Fri, 01 Jan 2016 00:00:00 GMT")
          :: [("ETag", Some "0x2")]))
    file_properties_object
  = _parse_properties decimal_int parse_known_date
      (response_with_headers ([("etag", Some "0x1")] ++ [("ETag", Some "0x2")]))
      file_properties_object.
Proof.
  apply unmatched_header_is_ignored.
  - apply mixed_case_not_in_table. vm_compute. discriminate.
  - reflexivity.
Defined.

Lemma absent_body_returns_response_witness :
  let response := Some (mk_response (Some [("etag", Some "0x1")]) None) in
  _convert_xml_to_shares decimal_int parse_known_date parse_document response
  = Ok (Passthrough response) /\
  _convert_xml_to_directories_and_files decimal_int parse_document response
  = Ok (Passthrough response) /\
  _convert_xml_to_ranges decimal_int parse_document response
  = Ok (Passthrough response) /\
  _convert_xml_to_share_stats decimal_int parse_document response
  = Ok (Passthrough response).
Proof.
  apply absent_body_returns_response. right. eexists. split; reflexivity.
Defined.

(** <NextMarker>abc</NextMarker> gives "abc". *)
Lemma next_marker_null_or_non_empty_witness :
  exists b root,
    body_of (response_with_body shares_xml) = Some b
    /\ parse_document b = Some root /\ marker_law root (Some "abc").
Proof.
  apply (next_marker_null_or_non_empty decimal_int parse_known_date parse_document).
  left. eexists. split; vm_compute; reflexivity.
Defined.

(** <NextMarker /> gives null. *)
Example empty_next_marker_is_null :
  exists entries,
    _convert_xml_to_directories_and_files decimal_int parse_document
      (response_with_body files_xml) = Ok (Parsed entries)
    /\ entries_next_marker entries = None.
Proof. eexists. split; vm_compute; reflexivity. Qed.

Lemma files_and_directories_in_document_order_witness :
  exists entries,
    _convert_xml_to_directories_and_files decimal_int parse_document
      (response_with_body files_xml) = Ok (Parsed entries)
    /\ file_name <$> files entries = [Some "a.txt"; Some "b.txt"]
    /\ directory_name <$> directories entries = [Some "sub"]
    /\ length (files entries) = 2%nat /\ length (directories entries) = 1%nat.
Proof.
  eexists. split; [vm_compute; reflexivity|].
  edestruct (files_and_directories_in_document_order decimal_int parse_document
               (response_with_body files_xml))
    as (b & root & ee & Hb & Hroot & Hee & _ & Hfiles & Hdirs & Hlen);
    [vm_compute; reflexivity|].
  injection Hb as <-. vm_compute in Hroot. injection Hroot as <-.
  vm_compute in Hee. injection Hee as <-.
  split; [exact Hfiles|]. split; [exact Hdirs|]. apply Hlen. reflexivity.
Defined.

(** A Share without Name and Etag parses; both fields are null. *)
Lemma share_without_name_is_accepted :
  exists s,
    _convert_xml_to_shares decimal_int parse_known_date parse_document
      (response_with_body nameless_share_xml)
    = Ok (Parsed (mk_list [s] None))
    /\ share_name s = None /\ share_etag (share_properties s) = None
    /\ share_quota (share_properties s) = Some 10.
Proof. eexists. split; [vm_compute; reflexivity|]. repeat split. Qed.

(** A Share without Quota makes the parse fail; a Share without Name and
    Etag parses, with both fields null. *)
Lemma share_children_required_and_tolerated_witness :
  raises (_convert_xml_to_shares decimal_int parse_known_date parse_document
            (response_with_body quotaless_share_xml))
  /\ exists shares,
      _convert_xml_to_shares decimal_int parse_known_date parse_document
        (response_with_body nameless_share_xml) = Ok (Parsed shares)
      /\ Forall (fun s => share_name s = None
                          /\ share_etag (share_properties s) = None)
                (items shares).
Proof.
  split.
  - destruct (share_children_required_and_tolerated
                decimal_int parse_known_date parse_document
                (response_with_body quotaless_share_xml) quotaless_share_xml
                quotaless_share_tree
                (node "Shares"
                   [ node "Share"
                       [ leaf "Name" "s1";
                         node "Properties"
                           [leaf "Last-Modified" a_date; leaf "Etag" "0x1"] ] ]))
      as [Hraise _]; [reflexivity | vm_compute; reflexivity | reflexivity |].
    eapply Hraise.
    + vm_compute. apply list_elem_of_here.
    + right. eexists. split; [reflexivity|]. right. reflexivity.
  - destruct (share_children_required_and_tolerated
                decimal_int parse_known_date parse_document
                (response_with_body nameless_share_xml) nameless_share_xml
                nameless_share_tree
                (node "Shares"
                   [ node "Share"
                       [ node "Properties"
                           [leaf "Last-Modified" a_date; leaf "Quota" "10"] ] ]))
      as (_ & _ & Hparse); [reflexivity | vm_compute; reflexivity | reflexivity |].
    destruct Hparse as (shares & Hshares & Hfields).
    + constructor; [|constructor].
      exists (node "Properties" [leaf "Last-Modified" a_date; leaf "Quota" "10"]),
        epoch_2016, 10.
      repeat split; reflexivity.
    + exists shares. split; [exact Hshares|].
      apply Forall2_cons_inv_l in Hfields as (s & l & [Hn He] & Hrest & Heq).
      apply Forall2_nil_inv_l in Hrest as ->. rewrite Heq.
      constructor; [|constructor]. split; [by apply Hn|].
      by apply (He (node "Properties"
                      [leaf "Last-Modified" a_date; leaf "Quota" "10"])).
Defined.


(** An empty ExposedHeaders element leaves exposed_headers null. *)
Example empty_exposed_headers_is_null :
  _convert_xml_to_service_properties decimal_int parse_document cors_xml
  = Ok (mk_service_properties None None None
          (Some [mk_cors_rule ["a.com"; "b.com"] ["GET"; "PUT"] 500 None
                   (Some ["x-ms-meta-data*"; "x-ms-meta-target*"])])
          None).
Proof. vm_compute. reflexivity. Qed.


(** The sample policy has a Start and neither Expiry nor Permission. *)
Lemma missing_permission_is_null_witness :
  _convert_xml_to_signed_identifier parse_known_date policy_element
  = Ok (Some "policy1", mk_access_policy None None (Some epoch_2016))
  /\ exists d,
      _convert_xml_to_signed_identifiers parse_known_date parse_document policy_xml
      = Ok d
      /\ d !! Some "policy1" = Some (mk_access_policy None None (Some epoch_2016)).
Proof.
  destruct (missing_permission_is_null parse_known_date parse_document
              policy_xml policy_tree [] policy_element [] [] []
              (leaf "Id" "policy1") (node "AccessPolicy" [leaf "Start" a_date])
              (Some epoch_2016) None)
    as (Hse & _ & _ & Hd); try reflexivity.
  - constructor.
  - constructor.
  - vm_compute. apply not_elem_of_nil.
  - split; [exact Hse | exact Hd].
Defined.

(** The builder on a request with one header, at clock reading 0. *)
Example _update_storage_file_header_example :
  let request := mk_request "GET" "myaccount.file.core.windows.net" "/myshare"
                   [("x-ms-version", "2015-02-21")] "" in
  let authentication :=
    mk_authentication
      (fun r => mk_request (req_method r) (req_host r) (req_path r)
                  (req_headers r ++ [("Authorization", "SharedKey myaccount:sig")])
                  (req_body r)) in
  fst (_update_storage_file_header nat (fun _ => a_date) (fun r => r)
         request authentication (mk_world nat 0%nat []))
  = [ ("x-ms-version", "2015-02-21"); ("x-ms-date", a_date);
      ("Content-Type", "application/octet-stream Charset=UTF-8");
      ("Authorization", "SharedKey myaccount:sig") ].
Proof. reflexivity. Qed.

(** ** Further worked examples *)

Lemma unrecognized_headers_set_nothing_witness :
  _parse_properties decimal_int parse_known_date
    (Some (mk_response (Some [("Date", Some a_date); ("Server", Some "Storage/1.0")])
             None))
    file_properties_object
  = Ok (Some file_properties_object, Some ∅).
Proof.
  apply unrecognized_headers_set_nothing.
  repeat constructor; try reflexivity;
    apply mixed_case_not_in_table; vm_compute; discriminate.
Defined.

Lemma metadata_keys_are_the_prefixed_header_names_witness :
  is_Some (({["x-ms-meta-foo" := Some "bar"]} : gmap string (option string))
             !! "etag")
  <-> "etag" ∈ [("etag", Some "0x1"); ("x-ms-meta-foo", Some "bar")].*1
      /\ startswith "etag" "x-ms-meta-" = true.
Proof.
  apply (metadata_keys_are_the_prefixed_header_names decimal_int parse_known_date
           [("etag", Some "0x1"); ("x-ms-meta-foo", Some "bar")] None
           file_properties_object
           (Some (mk_properties (<["etag" := PyStr "0x1"]> ∅)
                    (subrecords file_properties_object)))).
  vm_compute. reflexivity.
Defined.

(** content-type is written to content_settings.content_type. *)
Lemma table_header_sets_its_field_witness :
  exists x,
    convert decimal_int parse_known_date conv_str_or_none (Some "text/plain") = Ok x
    /\ slot_value
         (mk_properties ∅
            (<["content_settings" := {["content_type" := PyStr "text/plain"]}]>
               (subrecords file_properties_object)))
         (Some "content_settings") "content_type" = Some x.
Proof.
  apply (table_header_sets_its_field decimal_int parse_known_date
           [("x-ms-meta-foo", Some "bar")] "content-type" (Some "text/plain")
           [] None file_properties_object (Some "content_settings") "content_type"
           conv_str_or_none _ (Some {["x-ms-meta-foo" := Some "bar"]})).
  - vm_compute. reflexivity.
  - apply not_elem_of_nil.
  - vm_compute. reflexivity.
Defined.

(** A file properties object has no lease sub-record. *)
Lemma header_for_missing_subrecord_fails_witness :
  raises (_parse_properties decimal_int parse_known_date
            (response_with_headers [("x-ms-lease-status", Some "locked")])
            file_properties_object).
Proof.
  apply (header_for_missing_subrecord_fails decimal_int parse_known_date
           [("x-ms-lease-status", Some "locked")] None file_properties_object
           "x-ms-lease-status" (Some "locked") "lease" "status" conv_str_or_none).
  - vm_compute. reflexivity.
  - apply list_elem_of_here.
  - vm_compute. reflexivity.
Defined.

Lemma rejected_header_value_fails_witness :
  raises (_parse_properties decimal_int parse_known_date
            (response_with_headers [("etag", Some "0x1"); ("content-length", Some "abc")])
            file_properties_object).
Proof.
  apply (rejected_header_value_fails decimal_int parse_known_date
           [("etag", Some "0x1"); ("content-length", Some "abc")] None
           file_properties_object "content-length" (Some "abc") None
           "content_length" conv_int_or_none).
  - apply list_elem_of_further, list_elem_of_here.
  - vm_compute. reflexivity.
  - exists ValueError. reflexivity.
Defined.

Lemma passthrough_only_without_body_witness :
  (None : option HTTPResponse) = None /\
  ((None : option HTTPResponse) = None
   \/ exists r0, None = Some r0 /\ body r0 = None).
Proof.
  apply (passthrough_only_without_body decimal_int parse_known_date
           parse_any_document None None).
  left. reflexivity.
Defined.

Lemma malformed_xml_is_a_parse_error_witness :
  _convert_xml_to_ranges decimal_int parse_any_document
    (response_with_body "<Ranges><Range>") = Raise ParseError.
Proof.
  destruct (malformed_xml_is_a_parse_error decimal_int parse_known_date
              parse_any_document "<Ranges><Range>") as (_ & _ & H);
    [vm_compute; reflexivity|].
  destruct (H (response_with_body "<Ranges><Range>")) as (_ & _ & Hr & _);
    [reflexivity | exact Hr].
Defined.

(** An empty Shares container gives an empty list, not a failure. *)
Lemma listing_container_required_witness :
  _convert_xml_to_shares decimal_int parse_known_date parse_any_document
    (response_with_body empty_shares_xml)
  = Ok (Parsed (mk_list [] None))
  /\ _convert_xml_to_directories_and_files decimal_int parse_any_document
       (response_with_body empty_shares_xml) = Raise AttributeError.
Proof.
  destruct (listing_container_required decimal_int parse_known_date
              parse_any_document (response_with_body empty_shares_xml)
              empty_shares_xml empty_shares_tree)
    as (_ & Hentries & Hshares & _); [reflexivity | vm_compute; reflexivity |].
  split.
  - apply (Hshares (node "Shares" [])); reflexivity.
  - apply Hentries. reflexivity.
Defined.

(** The range 0-511 of the sample document. *)
Lemma ranges_parse_iff_witness :
  _convert_xml_to_ranges decimal_int parse_any_document (response_with_body ranges_xml)
  = Ok (Parsed [mk_range 0 511]).
Proof.
  apply ranges_parse_iff. exists ranges_xml, ranges_tree.
  split; [reflexivity|]. split; [vm_compute; reflexivity|].
  constructor; [split; reflexivity | constructor].
Defined.

Lemma share_usage_required_witness :
  _convert_xml_to_share_stats decimal_int parse_any_document
    (response_with_body stats_xml) = Ok (Parsed (mk_share_stats 15))
  /\ _convert_xml_to_share_stats decimal_int parse_any_document
       (response_with_body ranges_xml) = Raise TypeError.
Proof.
  split.
  - destruct (share_usage_required decimal_int parse_any_document
                (response_with_body stats_xml) stats_xml stats_tree)
      as [_ H]; [reflexivity | vm_compute; reflexivity |].
    rewrite (H (leaf "ShareUsage" "15")) by reflexivity. reflexivity.
  - destruct (share_usage_required decimal_int parse_any_document
                (response_with_body ranges_xml) ranges_xml ranges_tree)
      as [H _]; [reflexivity | vm_compute; reflexivity |].
    apply H. reflexivity.
Defined.

Lemma file_children_required_and_tolerated_witness :
  raises (_convert_xml_to_directories_and_files decimal_int parse_any_document
            (response_with_body file_without_length_xml)).
Proof.
  destruct (file_children_required_and_tolerated decimal_int parse_any_document
              (response_with_body file_without_length_xml)
              file_without_length_xml file_without_length_tree
              (node "Entries"
                 [node "File" [leaf "Name" "a.txt"; node "Properties" []]]))
    as [H _]; [reflexivity | vm_compute; reflexivity | reflexivity |].
  eapply H.
  - vm_compute. apply list_elem_of_here.
  - right. eexists. split; reflexivity.
Defined.

(** Two color children: the later one is kept. *)
Lemma share_metadata_from_children_witness :
  exists m : gmap string (option string),
    Some (<["color" := Some "blue"]> (<["size" := Some "xl"]>
            (<["color" := Some "red"]> ∅))) = Some m
    /\ forall k,
        m !! k = text <$> last (filter (fun c => tag c = k)
                                  [leaf "color" "red"; leaf "size" "xl";
                                   leaf "color" "blue"]).
Proof.
  destruct (share_metadata_from_children decimal_int parse_known_date
              share_with_metadata
              (mk_share (Some "s1")
                 (mk_share_properties (Some epoch_2016) (Some "0x1") (Some 10))
                 (Some (<["color" := Some "blue"]> (<["size" := Some "xl"]>
                          (<["color" := Some "red"]> ∅)))))) as [_ H];
    [vm_compute; reflexivity|].
  apply (H (node "Metadata"
              [leaf "color" "red"; leaf "size" "xl"; leaf "color" "blue"])).
  reflexivity.
Defined.

Lemma signed_identifier_keys_witness :
  exists root,
    parse_any_document policy_xml = Some root /\
    forall k,
      is_Some (({[Some "policy1" := mk_access_policy None None (Some epoch_2016)]}
                : gmap (option string) AccessPolicy) !! k)
      <-> exists se ide, se ∈ findall root "SignedIdentifier"
                         /\ find se "Id" = Some ide /\ text ide = k.
Proof.
  apply (signed_identifier_keys parse_known_date parse_any_document policy_xml).
  vm_compute. reflexivity.
Defined.

Lemma signed_identifier_children_required_witness :
  raises (_convert_xml_to_signed_identifiers parse_known_date parse_any_document
            policy_without_id_xml).
Proof.
  apply (signed_identifier_children_required parse_known_date parse_any_document
           policy_without_id_xml policy_without_id_tree
           (node "SignedIdentifier" [node "AccessPolicy" []])).
  - vm_compute. reflexivity.
  - vm_compute. apply list_elem_of_here.
  - left. reflexivity.
Defined.

(** Logging and a default version, no metrics and no CORS. *)
Lemma optional_parts_follow_the_elements_witness :
  exists sp,
    _convert_xml_to_service_properties decimal_int parse_any_document logging_xml
    = Ok sp
    /\ sp_logging sp
       = Some (mk_logging (Some "1.0") (Some true) (Some false) (Some false)
                 (mk_retention_policy (Some true) (Some 7)))
    /\ sp_hour_metrics sp = None /\ sp_minute_metrics sp = None
    /\ sp_cors sp = None /\ sp_target_version sp = Some "2015-02-21".
Proof.
  eexists. split; [vm_compute; reflexivity|].
  destruct (optional_parts_follow_the_elements decimal_int parse_any_document
              logging_xml _ eq_refl)
    as (root & Hroot & _ & Hh & Hm & Hc & _ & Hv).
  vm_compute in Hroot. injection Hroot as <-.
  split; [reflexivity|]. split; [by apply Hh|]. split; [by apply Hm|].
  split; [by apply Hc | exact Hv].
Defined.

Lemma logging_and_metrics_children_required_witness :
  raises (_convert_xml_to_service_properties decimal_int parse_any_document
            logging_without_retention_xml).
Proof.
  destruct (logging_and_metrics_children_required decimal_int parse_any_document
              logging_without_retention_xml logging_without_retention_tree)
    as [H _]; [vm_compute; reflexivity|].
  eapply H; [reflexivity|]. right. right. left. reflexivity.
Defined.

(** a.com,b.com and GET,PUT of the sample rule. *)
Lemma cors_lists_round_trip_witness :
  cors_allowed_origins
    (mk_cors_rule ["a.com"; "b.com"] ["GET"; "PUT"] 500 None
       (Some ["x-ms-meta-data*"; "x-ms-meta-target*"]))
  = ["a.com"; "b.com"].
Proof.
  destruct (cors_lists_round_trip decimal_int cors_rule_tree
              (mk_cors_rule ["a.com"; "b.com"] ["GET"; "PUT"] 500 None
                 (Some ["x-ms-meta-data*"; "x-ms-meta-target*"]))
              ["a.com"; "b.com"]) as [H _].
  - vm_compute. reflexivity.
  - discriminate.
  - repeat constructor; vm_compute; intros H;
      repeat (apply elem_of_cons in H as [H|H]; [discriminate|]);
      by apply elem_of_nil in H.
  - apply H. reflexivity.
Defined.

Lemma cors_rule_children_required_witness :
  raises (_convert_xml_to_service_properties decimal_int parse_any_document
            cors_empty_origins_xml).
Proof.
  apply (cors_rule_children_required decimal_int parse_any_document
           cors_empty_origins_xml cors_empty_origins_tree
           (node "Cors" [cors_empty_origins_rule]) cors_empty_origins_rule).
  - vm_compute. reflexivity.
  - reflexivity.
  - vm_compute. apply list_elem_of_here.
  - left. reflexivity.
Defined.

(** The sixteen spellings include True; yes is false. *)
Example _bool_examples :
  _bool (Some "True") = Ok true /\ _bool (Some "tRuE") = Ok true
  /\ _bool (Some "yes") = Ok false /\ _bool (Some "") = Ok false.
Proof. repeat split. Qed.

Lemma _parse_file_spec_witness :
  exists r props metadata,
    response_with_headers [("x-ms-meta-foo", Some "bar")] = Some r
    /\ _parse_properties decimal_int parse_known_date
         (response_with_headers [("x-ms-meta-foo", Some "bar")])
         file_properties_object
       = Ok (Some props, Some metadata)
    /\ (None, Some file_properties_object,
        Some ({["x-ms-meta-foo" := Some "bar"]} : gmap string (option string)))
       = (body r, Some props, Some metadata).
Proof.
  destruct (_parse_file_spec decimal_int parse_known_date _
              (fun b p m => (b, p, m)) file_properties_object) as (_ & _ & H).
  apply (H (response_with_headers [("x-ms-meta-foo", Some "bar")])).
  vm_compute. reflexivity.
Defined.
